(** * Reduction layers of [statistics.py]

    A shallow embedding of the five pycaffe layers [Mean], [Prod], [Sum],
    [Min] and [Max] of [statistics.py], with the parts of Python, pycaffe
    and numpy that their four hooks call.  The five classes have the same
    [setup], [reshape] and [backward] text and differ in the numpy function
    that [forward] calls, so one definition per hook is given, [forward]
    reading the class of the instance.

    Element values are exact rationals ([Qc]); rounding, infinities and
    nan of the 32-bit floats of a blob are outside this model. *)

From stdpp Require Import base numbers list list_numbers sorting strings sets.
From Stdlib Require Import QArith Qcanon.

Open Scope Z_scope.
Open Scope nat_scope.

(** ** Python: exceptions and results *)

Inductive exn : Type :=
| Exception (msg : string)      (* raise Exception("...") *)
| IndexError
| KeyError (key : string)
| AttributeError (name : string)
| ValueError
| AxisError.

Inductive result (A : Type) : Type :=
| Ok (a : A)
| Raise (e : exn).
Arguments Ok {A} a.
Arguments Raise {A} e.

#[global] Instance result_ret : MRet result := λ A a, Ok a.
#[global] Instance result_bind : MBind result := λ A B f r,
  match r with Ok a => f a | Raise e => Raise e end.

(** [l[i]] for an index that is not negative. *)
Definition getitem {A} (l : list A) (i : nat) : result A :=
  match l !! i with Some x => Ok x | None => Raise IndexError end.

(** Python's index rule for a list of length [n]: [0 <= i < n] is the
    position [i], [-n <= i < 0] is the position [n + i], anything else
    raises [IndexError]. *)
Definition py_index (n : nat) (i : Z) : result nat :=
  if decide (0 ≤ i < Z.of_nat n)%Z then Ok (Z.to_nat i)
  else if decide (- Z.of_nat n ≤ i < 0)%Z then Ok (Z.to_nat (Z.of_nat n + i))
  else Raise IndexError.

(** [l[i] = v] *)
Definition list_setitem {A} (l : list A) (i : Z) (v : A) : result (list A) :=
  k ← py_index (length l) i; mret (<[k:=v]> l).

(** [del l[i]] *)
Definition list_delitem {A} (l : list A) (i : Z) : result (list A) :=
  k ← py_index (length l) i; mret (delete k l).

(** [sorted(l)] on integers. *)
Definition sorted (l : list Z) : list Z := merge_sort Z.le l.

(** [reversed(l)] consumed by a [for] loop. *)
Definition reversed {A} (l : list A) : list A := reverse l.

(** ** pycaffe: blobs *)

(** A blob: its shape, and the data and gradient buffers in row-major
    order.  [count] is the number of elements. *)
Record blob : Type := Blob {
  shape : list nat;
  data : list Qc;
  diff : list Qc
}.

Definition size_of (s : list nat) : nat := foldr Nat.mul 1 s.

Definition count (b : blob) : nat := size_of (shape b).

(** A buffer whose length becomes [n]: it keeps its first [n] values when
    it is long enough and is fresh zeroed memory otherwise. *)
Definition resize (n : nat) (buf : list Qc) : list Qc :=
  if decide (n ≤ length buf) then take n buf else replicate n 0%Qc.

(** [Blob.reshape], called with the dimensions [s]: the shape changes, no
    value is written. *)
Definition blob_reshape (s : list nat) (b : blob) : blob :=
  {| shape := s;
     data := resize (size_of s) (data b);
     diff := resize (size_of s) (diff b) |}.

(** ** The layer instance and the state a hook runs in *)

Inductive reduction : Type := Mean | Prod | Sum | Min | Max.

#[global] Instance reduction_eq_dec : EqDecision reduction.
Proof. solve_decision. Defined.

(** The value of [axis]: a plain [int], or a tuple of [int]s (the one
    collection that numpy's reductions take as [axis]). *)
Inductive axis_spec : Type :=
| AxisInt (k : Z)
| AxisSeq (ks : list Z).

(** The dictionary that [eval(self.param_str)] gives, at its two keys. *)
Record params : Type := Params {
  p_axis : option axis_spec;        (* params["axis"], when the key is there *)
  p_keepdims : option bool          (* params["keepdims"] *)
}.

(** An instance: its class, the payload of [param_str], and the two
    attributes that [setup] creates ([None] before that). *)
Record layer : Type := Layer {
  cls : reduction;
  param_str : params;
  axis : option axis_spec;
  keepdims : option bool
}.

(** What a hook sees and changes: the instance and the blobs the host hands
    in as [bottom] and [top].  The host gives distinct blobs for the input
    and the output; a layer run in place is not modelled. *)
Record world : Type := World {
  self : layer;
  bottom : list blob;
  top : list blob
}.

(** State with exceptions: the state at the raise is kept, as Python keeps
    what was written before an exception. *)
Definition M (A : Type) : Type := world → result A * world.

#[global] Instance M_ret : MRet M := λ A a w, (Ok a, w).
#[global] Instance M_bind : MBind M := λ A B f m w,
  match m w with
  | (Ok a, w') => f a w'
  | (Raise e, w') => (Raise e, w')
  end.

Definition raise {A} (e : exn) : M A := λ w, (Raise e, w).
Definition lift {A} (r : result A) : M A := λ w, (r, w).
Definition gets {A} (f : world → A) : M A := λ w, (Ok (f w), w).
Definition modify (f : world → world) : M unit := λ w, (Ok (), f w).

(** [self.name] for an attribute that [setup] creates. *)
Definition attr {A} (name : string) (f : layer → option A) : M A :=
  λ w, match f (self w) with
       | Some a => (Ok a, w)
       | None => (Raise (AttributeError name), w)
       end.

(** [params[key]] *)
Definition dict_get {A} (key : string) (v : option A) : M A :=
  match v with Some a => mret a | None => raise (KeyError key) end.

Definition set_axis (a : axis_spec) : M unit :=
  modify (λ w, {| self := {| cls := cls (self w); param_str := param_str (self w);
                            axis := Some a; keepdims := keepdims (self w) |};
                  bottom := bottom w; top := top w |}).

Definition set_keepdims (k : bool) : M unit :=
  modify (λ w, {| self := {| cls := cls (self w); param_str := param_str (self w);
                            axis := axis (self w); keepdims := Some k |};
                  bottom := bottom w; top := top w |}).

Definition set_top (i : nat) (b : blob) : M unit :=
  modify (λ w, {| self := self w; bottom := bottom w; top := <[i:=b]> (top w) |}).

Definition set_bottom (i : nat) (b : blob) : M unit :=
  modify (λ w, {| self := self w; bottom := <[i:=b]> (bottom w); top := top w |}).

(** ** [setup] (lines 9-17, and the same text in the other four classes) *)

Definition setup : M unit :=
  bs ← gets bottom;
  if decide (length bs ≠ 1) then raise (Exception "Only input one Tensor at a time!") else
  ts ← gets top;
  if decide (length ts ≠ 1) then raise (Exception "Only output one Tensor at a time!") else
  p ← gets (λ w, param_str (self w));
  a ← dict_get "axis" (p_axis p);
  set_axis a;;
  k ← dict_get "keepdims" (p_keepdims p);
  set_keepdims k.

(** ** [reshape] (lines 19-35) *)

(** One pass of the body of the loop of lines 30-34 (and of lines 25-28). *)
Definition reshape_step (s : list nat) (i : Z) : M (list nat) :=
  kd ← attr "keepdims" keepdims;
  if kd : bool then lift (list_setitem s i 1) else lift (list_delitem s i).

(** [for i in l: body] threading the local list [shape]. *)
Fixpoint reshape_loop (l : list Z) (s : list nat) : M (list nat) :=
  match l with
  | [] => mret s
  | i :: l' => s' ← reshape_step s i; reshape_loop l' s'
  end.

Definition reshape : M unit :=
  bs ← gets bottom;
  b ← lift (getitem bs 0);
  if decide (count b = 0) then raise (Exception "Input must not be empty!") else
  a ← attr "axis" axis;
  s ← match a with
      | AxisInt k => reshape_step (shape b) k
      | AxisSeq ks => reshape_loop (reversed (sorted ks)) (shape b)
      end;
  ts ← gets top;
  t ← lift (getitem ts 0);
  set_top 0 (blob_reshape s t).

(** ** numpy: arrays in row-major order *)

(** An array: its shape and its values in C order.  [bottom[0].data] and
    [top[0].diff] are such arrays over the buffers of a blob. *)
Record ndarray : Type := NdArray {
  nd_shape : list nat;
  nd_data : list Qc
}.

Definition data_of (b : blob) : ndarray := NdArray (shape b) (data b).
Definition diff_of (b : blob) : ndarray := NdArray (shape b) (diff b).

(** All the multi-indices of an array of shape [s], in C order. *)
Fixpoint indices (s : list nat) : list (list nat) :=
  match s with
  | [] => [[]]
  | n :: s' => i ← seq 0 n; (i ::.) <$> indices s'
  end.

(** The position in the buffer of the element at multi-index [idx]. *)
Fixpoint ravel (s idx : list nat) : nat :=
  match s, idx with
  | _ :: s', i :: idx' => i * size_of s' + ravel s' idx'
  | _, _ => 0
  end.

Definition item (a : ndarray) (idx : list nat) : Qc :=
  nth (ravel (nd_shape a) idx) (nd_data a) 0%Qc.

(** [normalize_axis_index]: an axis of an array with [ndim] dimensions is
    in [-ndim, ndim); a negative one counts from the end. *)
Definition normalize_axis_index (a : Z) (ndim : nat) : result nat :=
  if decide (- Z.of_nat ndim ≤ a < Z.of_nat ndim)%Z
  then Ok (Z.to_nat (if decide (a < 0)%Z then a + Z.of_nat ndim else a)%Z)
  else Raise AxisError.

Fixpoint normalize_axis_tuple (ks : list Z) (ndim : nat) : result (list nat) :=
  match ks with
  | [] => Ok []
  | k :: ks' =>
      a ← normalize_axis_index k ndim;
      r ← normalize_axis_tuple ks' ndim;
      mret (a :: r)
  end.

(** The axes a reduction runs over.  A tuple with a repeated axis is
    refused.  For a plain [int] on an array without dimensions the
    reductions of a ufunc ([sum], [prod], [min], [max]) let the axes 0 and
    -1 through and reduce nothing; [mean] counts its items with
    [normalize_axis_index] first and refuses them. *)
Definition reduce_axes (c : reduction) (a : axis_spec) (ndim : nat) : result (list nat) :=
  match a with
  | AxisInt k =>
      if decide (ndim = 0 ∧ (k = 0 ∨ k = -1)%Z ∧ c ≠ Mean) then Ok []
      else x ← normalize_axis_index k ndim; mret [x]
  | AxisSeq ks =>
      r ← normalize_axis_tuple ks ndim;
      if decide (NoDup r) then Ok r else Raise ValueError
  end.

(** For each dimension, whether it is reduced. *)
Definition axes_mask (ndim : nat) (axes : list nat) : list bool :=
  (λ p, bool_decide (p ∈ axes)) <$> seq 0 ndim.

(** The dimensions of [s] that the mask selects. *)
Fixpoint select (mask : list bool) (s : list nat) : list nat :=
  match s, mask with
  | n :: s', true :: m' => n :: select m' s'
  | _ :: s', false :: m' => select m' s'
  | _, _ => []
  end.

(** The shape of the result: a reduced dimension is dropped, or is 1 under
    [keepdims]. *)
Fixpoint reduced_shape (kd : bool) (s : list nat) (mask : list bool) : list nat :=
  match s, mask with
  | n :: s', true :: m' =>
      if kd then 1 :: reduced_shape kd s' m' else reduced_shape kd s' m'
  | n :: s', false :: m' => n :: reduced_shape kd s' m'
  | _, _ => []
  end.

(** The multi-indices of the input that one element of the result is
    reduced from: the reduced coordinates take every value, the first
    reduced axis slowest, the others are those of [idx]. *)
Fixpoint fibre (kd : bool) (s : list nat) (mask : list bool) (idx : list nat)
  : list (list nat) :=
  match s, mask with
  | n :: s', true :: m' =>
      j ← seq 0 n; (j ::.) <$> fibre kd s' m' (if kd then tail idx else idx)
  | n :: s', false :: m' =>
      match idx with
      | i :: idx' => (i ::.) <$> fibre kd s' m' idx'
      | [] => []
      end
  | _, _ => [[]]
  end.

Definition Qcmin (x y : Qc) : Qc := if decide (x ≤ y)%Qc then x else y.
Definition Qcmax (x y : Qc) : Qc := if decide (x ≤ y)%Qc then y else x.
Definition Qc_of_nat (n : nat) : Qc := Qc_of_Z (Z.of_nat n).

(** A fold without a unit, over a list that is not empty. *)
Definition fold1 (f : Qc → Qc → Qc) (l : list Qc) : Qc :=
  match l with
  | [] => 0%Qc
  | x :: l' => foldl f x l'
  end.

(** What each reduction makes of the values of one fibre; [items] is the
    product of the reduced dimensions, by which [mean] divides its sum. *)
Definition reduce_values (c : reduction) (items : nat) (l : list Qc) : Qc :=
  match c with
  | Mean => (foldl Qcplus 0 l / Qc_of_nat items)%Qc
  | Prod => foldl Qcmult 1%Qc l
  | Sum => foldl Qcplus 0%Qc l
  | Min => fold1 Qcmin l
  | Max => fold1 Qcmax l
  end.

Definition has_identity (c : reduction) : bool :=
  match c with Min | Max => false | _ => true end.

(** [np.mean], [np.prod], [np.sum], [np.min] and [np.max] with [axis] and
    [keepdims].  [min] and [max] have no identity and refuse a reduced
    dimension of length 0.  (On an empty fibre [mean] is nan in numpy; the
    rationals have none, and the division gives 0 here.) *)
Definition np_reduce (c : reduction) (a : ndarray) (ax : axis_spec) (kd : bool)
  : result ndarray :=
  axes ← reduce_axes c ax (length (nd_shape a));
  let mask := axes_mask (length (nd_shape a)) axes in
  if decide (has_identity c = false ∧ 0 ∈ select mask (nd_shape a)) then Raise ValueError
  else
    let s := reduced_shape kd (nd_shape a) mask in
    let items := size_of (select mask (nd_shape a)) in
    Ok (NdArray s
          ((λ idx, reduce_values c items (item a <$> fibre kd (nd_shape a) mask idx))
             <$> indices s)).

(** Leading dimensions of length 1 that a value has in excess of its
    target are ignored by an assignment. *)
Fixpoint strip_ones (extra : nat) (s : list nat) : list nat :=
  match extra, s with
  | S e, 1 :: s' => strip_ones e s'
  | _, _ => s
  end.

(** Broadcasting: the shapes are aligned at their last dimension, and each
    dimension of the source is that of the target or 1. *)
Definition broadcastable (src dst : list nat) : Prop :=
  length src ≤ length dst ∧
  Forall2 (λ m n, m = n ∨ m = 1) src (drop (length dst - length src) dst).

#[global] Instance broadcastable_dec src dst : Decision (broadcastable src dst).
Proof. unfold broadcastable. apply _. Defined.

(** The multi-index of the source that is read for [idx] of the target. *)
Definition bcast_index (src idx : list nat) : list nat :=
  zip_with (λ m i, if decide (m = 1) then 0 else i) src
           (drop (length idx - length src) idx).

(** [dst[...] = v]: every element of [dst] is written, from [v] broadcast
    to the shape of [dst]; [ValueError] when the shapes do not allow it. *)
Definition setitem_ellipsis (dst v : ndarray) : result ndarray :=
  let src := strip_ones (length (nd_shape v) - length (nd_shape dst)) (nd_shape v) in
  if decide (broadcastable src (nd_shape dst))
  then Ok (NdArray (nd_shape dst)
             ((λ idx, nth (ravel src (bcast_index src idx)) (nd_data v) 0%Qc)
                <$> indices (nd_shape dst)))
  else Raise ValueError.

(** [a[:]]: a view of the whole array; an array without dimensions cannot
    be sliced. *)
Definition getitem_slice (a : ndarray) : result ndarray :=
  match nd_shape a with
  | [] => Raise IndexError
  | _ => Ok a
  end.

(** ** [forward] (lines 37-39, 80-82, 123-125, 166-168, 209-211) *)

Definition forward : M unit :=
  c ← gets (λ w, cls (self w));
  bs ← gets bottom;
  b ← lift (getitem bs 0);
  a ← attr "axis" axis;
  kd ← attr "keepdims" keepdims;
  v ← lift (np_reduce c (data_of b) a kd);
  ts ← gets top;
  t ← lift (getitem ts 0);
  r ← lift (setitem_ellipsis (data_of t) v);
  set_top 0 {| shape := shape t; data := nd_data r; diff := diff t |}.

(** ** [backward] (lines 41-45, and the same text in the other four classes) *)

(** The body of the loop at an [i] whose flag is set. *)
Definition backward_step (i : nat) : M unit :=
  ts ← gets top;
  t ← lift (getitem ts i);
  g ← lift (getitem_slice (diff_of t));
  bs ← gets bottom;
  b ← lift (getitem bs i);
  r ← lift (setitem_ellipsis (diff_of b) g);
  set_bottom i {| shape := shape b; data := data b; diff := nd_data r |}.

(** [for i in range(len(propagate_down))], from [i] on. *)
Fixpoint backward_loop (i : nat) (propagate_down : list bool) : M unit :=
  match propagate_down with
  | [] => mret ()
  | p :: rest =>
      (if negb p then mret () else backward_step i);;
      backward_loop (S i) rest
  end.

Definition backward (propagate_down : list bool) : M unit :=
  backward_loop 0 propagate_down.

(** ** The shapes and reductions the specification describes *)

(** The dimensions a valid axis specification names: indices of dimensions
    of the input, distinct from each other. *)
Definition valid_axis (ndim : nat) (a : axis_spec) : Prop :=
  match a with
  | AxisInt k => (0 ≤ k < Z.of_nat ndim)%Z
  | AxisSeq ks => Forall (λ k, 0 ≤ k < Z.of_nat ndim)%Z ks ∧ NoDup ks
  end.

Definition axis_set (a : axis_spec) : list nat :=
  match a with
  | AxisInt k => [Z.to_nat k]
  | AxisSeq ks => Z.to_nat <$> ks
  end.

(** A list read by position, from position [p] on: an entry at a position
    that [A] does not name is kept; one that [A] names becomes [u] under
    keep-dims and is deleted otherwise. *)
Fixpoint at_axes_from {T} (p : nat) (kd : bool) (A : list nat) (u : T) (l : list T)
  : list T :=
  match l with
  | [] => []
  | x :: l' =>
      (if decide (p ∈ A) then (if kd then [u] else []) else [x])
        ++ at_axes_from (S p) kd A u l'
  end.

(** The output shape: a named dimension has size 1, or is removed. *)
Definition spec_shape (kd : bool) (A : list nat) (s : list nat) : list nat :=
  at_axes_from 0 kd A 1 s.

(** The output position an input position is reduced into: its coordinates
    on the dimensions that are not named (a named one reads 0 under
    keep-dims). *)
Definition project (kd : bool) (A : list nat) (full : list nat) : list nat :=
  at_axes_from 0 kd A 0 full.

(** The elements of [a] that share with [idx] all the coordinates that are
    not reduced. *)
Definition sharing (kd : bool) (A : list nat) (a : ndarray) (idx : list nat) : list Qc :=
  item a <$> filter (λ full, project kd A full = idx) (indices (nd_shape a)).




(** The errors as the specification names them. *)
Definition ConfigurationError (e : exn) : Prop :=
  e = Exception "Only input one Tensor at a time!" ∨
  e = Exception "Only output one Tensor at a time!".

Definition EmptyInputError : exn := Exception "Input must not be empty!".

(** An instance as [setup] leaves it, with the blobs of the host. *)
Definition configured (c : reduction) (p : params) (a : axis_spec) (kd : bool)
    (bs ts : list blob) : world :=
  {| self := {| cls := c; param_str := p; axis := Some a; keepdims := Some kd |};
     bottom := bs; top := ts |}.

(** The array in [top[0].data] after a run, or the exception of the run. *)
Definition output (m : M unit) (w : world) : result ndarray :=
  match m w with
  | (Ok _, w') => t ← getitem (top w') 0; mret (data_of t)
  | (Raise e, _) => Raise e
  end.

(** Natural numbers as element values. *)
Definition qs (l : list nat) : list Qc := Qc_of_nat <$> l.

(** The state [w] with other blobs as [top]. *)
Definition with_top (w : world) (ts : list blob) : world :=
  {| self := self w; bottom := bottom w; top := ts |}.

(** What is seen of a run from outside the instance: how it ended, and the
    blobs. *)
Definition blobs_of (r : result unit * world) : result unit * list blob * list blob :=
  (r.1, bottom r.2, top r.2).

(** The values of the whole output, each the reduction of the elements of
    [a] that share its coordinates. *)
Definition reduced_values (c : reduction) (kd : bool) (A : list nat) (a : ndarray)
    (s : list nat) : list Qc :=
  (λ idx, reduce_values c (length (sharing kd A a idx)) (sharing kd A a idx))
    <$> indices s.

(** The output blob after [reshape] and [forward] on the input [b], from the
    blob [t]. *)
Definition reduced_blob (c : reduction) (kd : bool) (a : axis_spec) (b t : blob) : blob :=
  let s := spec_shape kd (axis_set a) (shape b) in
  {| shape := s;
     data := reduced_values c kd (axis_set a) (data_of b) s;
     diff := resize (size_of s) (diff t) |}.


(** ** Auxiliary notions of the proofs *)

Definition desc (l : list Z) : Prop := StronglySorted (λ x y, y < x)%Z l.
Definition in_range (n : nat) (k : Z) : Prop := (0 ≤ k < Z.of_nat n)%Z.

(** The mask of the dimensions [p], ..., [p + n - 1]. *)
Definition mask_from (p n : nat) (A : list nat) : list bool :=
  (λ q, bool_decide (q ∈ A)) <$> seq p n.

(** ** Scenarios *)

(** The input [[1,2,3],[4,5,6]] of shape [2,3], with any gradient buffer. *)
Definition example_input (g : list Qc) : blob :=
  {| shape := [2; 3]; data := qs [1; 2; 3; 4; 5; 6]; diff := g |}.

(** An output blob before its first [reshape]: no dimension, one element. *)
Definition fresh_top : blob := {| shape := []; data := [0%Qc]; diff := [0%Qc] |}.

(** A new instance of class [c] whose [param_str] holds [axis] and
    [keepdims], bound to the input [b] and the output [t]. *)
Definition scenario (c : reduction) (a : axis_spec) (kd : bool) (b t : blob) : world :=
  {| self := {| cls := c;
                param_str := {| p_axis := Some a; p_keepdims := Some kd |};
                axis := None; keepdims := None |};
     bottom := [b];
     top := [t] |}.

(** The host writes the gradient [g] of the output. *)
Definition set_top_diff (g : list Qc) (w : world) : world :=
  {| self := self w; bottom := bottom w;
     top := (λ t, {| shape := shape t; data := data t; diff := g |}) <$> top w |}.

(** The state in which the host calls [backward]: after [setup], [reshape]
    and [forward] on an input of shape [s] and values [d] with a zero
    gradient, the output gradient being [g]. *)
Definition before_backward (c : reduction) (a : axis_spec) (kd : bool)
    (s : list nat) (d g : list Qc) : world :=
  set_top_diff g
    ((setup;; reshape;; forward)
       (scenario c a kd {| shape := s; data := d; diff := replicate (size_of s) 0%Qc |}
          fresh_top)).2.

(** ** Axes as Python and numpy read them *)

(** The computation of the shape in [reshape] (lines 24-34): one pass for a
    plain [int], the loop for a collection. *)
Definition new_shape (a : axis_spec) (s : list nat) : M (list nat) :=
  match a with
  | AxisInt k => reshape_step s k
  | AxisSeq ks => reshape_loop (reversed (sorted ks)) s
  end.

(** The position Python reads for the index [k] of a list of length [n]. *)
Definition py_position (n : nat) (k : Z) : nat :=
  Z.to_nat (if decide (k < 0)%Z then Z.of_nat n + k else k)%Z.

(** The indices Python accepts for a list of length [n]. *)
Definition py_in_range (n : nat) (k : Z) : Prop := (- Z.of_nat n ≤ k < Z.of_nat n)%Z.

(** The integers of an axis specification, as written. *)
Definition axis_indices (a : axis_spec) : list Z :=
  match a with AxisInt k => [k] | AxisSeq ks => ks end.

(** The tuple of all the dimensions of an array of rank [n]. *)
Definition all_axes (n : nat) : axis_spec := AxisSeq (Z.of_nat <$> seq 0 n).

(** * Properties *)

(** ** Positions named by an axis specification *)

Lemma py_index_nonneg n k :
  (0 ≤ k < Z.of_nat n)%Z → py_index n k = Ok (Z.to_nat k).
Proof. intros H. unfold py_index. by rewrite decide_True. Qed.

Lemma at_axes_from_ext {T} p kd A B (u : T) l :
  (∀ q, p ≤ q < p + length l → q ∈ A ↔ q ∈ B) →
  at_axes_from p kd A u l = at_axes_from p kd B u l.
Proof.
  revert p. induction l as [|x l IH]; intros p H; simpl; [done|].
  rewrite (IH (S p)) by (intros q Hq; apply H; simpl; lia).
  f_equal. assert (p ∈ A ↔ p ∈ B) as Hp by (apply H; simpl; lia).
  destruct (decide (p ∈ A)), (decide (p ∈ B)); tauto.
Qed.

Lemma at_axes_from_none {T} p A (u : T) l kd :
  (∀ q, p ≤ q < p + length l → q ∉ A) → at_axes_from p kd A u l = l.
Proof.
  revert p. induction l as [|x l IH]; intros p H; simpl; [done|].
  rewrite decide_False by (apply H; simpl; lia).
  simpl. f_equal. apply IH. intros q Hq. apply H. simpl. lia.
Qed.

Lemma at_axes_from_insert {T} p A (u : T) l d :
  d < length l →
  at_axes_from p true A u (<[d:=u]> l) = at_axes_from p true ((p + d) :: A) u l.
Proof.
  revert p d. induction l as [|x l IH]; intros p d Hd; simpl in *; [lia|].
  destruct d as [|d]; simpl.
  - rewrite Nat.add_0_r, (decide_True (P := p ∈ p :: A)) by set_solver.
    replace (if decide (p ∈ A) then [u] else [u]) with [u] by (by destruct (decide _)).
    f_equal. apply at_axes_from_ext. intros q Hq.
    rewrite elem_of_cons. split; [by right|intros [?|?]; [lia|done]].
  - rewrite IH by lia. replace (S p + d) with (p + S d) by lia.
    f_equal. destruct (decide (p ∈ A)), (decide (p ∈ (p + S d) :: A)); try done.
    + set_solver.
    + exfalso. apply elem_of_cons in e as [?|?]; [lia|done].
Qed.

Lemma at_axes_from_delete {T} p A (u : T) l d :
  d < length l → (∀ r, r ∈ A → r < p + d) →
  at_axes_from p false A u (delete d l) = at_axes_from p false ((p + d) :: A) u l.
Proof.
  revert p d. induction l as [|x l IH]; intros p d Hd HA; simpl in *; [lia|].
  destruct d as [|d]; simpl.
  - rewrite Nat.add_0_r in *. rewrite (decide_True (P := p ∈ p :: A)) by set_solver.
    simpl. rewrite !at_axes_from_none; [done| |].
    + intros q Hq [?|Hin]%elem_of_cons; [lia|]. apply HA in Hin. lia.
    + intros q Hq Hin. apply HA in Hin. lia.
  - rewrite IH by (try lia; intros r Hr; apply HA in Hr; lia).
    replace (S p + d) with (p + S d) by lia.
    f_equal. destruct (decide (p ∈ A)), (decide (p ∈ (p + S d) :: A)); try done.
    + set_solver.
    + exfalso. apply elem_of_cons in e as [?|?]; [lia|done].
Qed.

Lemma length_at_axes_from_keep {T} p A (u : T) l :
  length (at_axes_from p true A u l) = length l.
Proof.
  revert p. induction l as [|x l IH]; intros p; simpl; [done|].
  rewrite length_app, IH. by destruct (decide _).
Qed.

Lemma bind_Ok {A B} (m : M A) (f : A → M B) w a w' :
  m w = (Ok a, w') → (m ≫= f) w = f a w'.
Proof. intros H. unfold mbind, M_bind. by rewrite H. Qed.

Lemma bind_Raise {A B} (m : M A) (f : A → M B) w e w' :
  m w = (Raise e, w') → (m ≫= f) w = (Raise e, w').
Proof. intros H. unfold mbind, M_bind. by rewrite H. Qed.

Lemma attr_Some {A} name (f : layer → option A) w a :
  f (self w) = Some a → attr name f w = (Ok a, w).
Proof. intros H. unfold attr. by rewrite H. Qed.

Lemma reshape_step_keep s i w :
  keepdims (self w) = Some true → in_range (length s) i →
  reshape_step s i w = (Ok (<[Z.to_nat i:=1]> s), w).
Proof.
  intros Hk Hi. unfold reshape_step.
  rewrite (bind_Ok _ _ _ _ _ (attr_Some _ _ _ _ Hk)).
  unfold lift, list_setitem. by rewrite py_index_nonneg.
Qed.

Lemma reshape_step_drop s i w :
  keepdims (self w) = Some false → in_range (length s) i →
  reshape_step s i w = (Ok (delete (Z.to_nat i) s), w).
Proof.
  intros Hk Hi. unfold reshape_step.
  rewrite (bind_Ok _ _ _ _ _ (attr_Some _ _ _ _ Hk)).
  unfold lift, list_delitem. by rewrite py_index_nonneg.
Qed.

Lemma reshape_loop_desc D s w kd :
  keepdims (self w) = Some kd → Forall (in_range (length s)) D → desc D →
  reshape_loop D s w = (Ok (spec_shape kd (Z.to_nat <$> D) s), w).
Proof.
  intros Hk. revert s. induction D as [|d D IH]; intros s HD Hs; simpl.
  - unfold spec_shape. rewrite at_axes_from_none; [done|]. intros q _. apply not_elem_of_nil.
  - apply Forall_cons in HD as [Hd HD]. apply StronglySorted_inv in Hs as [Hs Hlt].
    assert (Hd' := Hd). destruct Hd' as [Hd0 Hd1].
    destruct kd.
    + rewrite (bind_Ok _ _ _ _ _ (reshape_step_keep _ _ _ Hk Hd)).
      rewrite IH; [|by rewrite length_insert|done].
      unfold spec_shape. rewrite at_axes_from_insert by lia. done.
    + rewrite (bind_Ok _ _ _ _ _ (reshape_step_drop _ _ _ Hk Hd)).
      rewrite IH; [| |done].
      * unfold spec_shape. rewrite at_axes_from_delete; [done|lia|].
        intros r (k & -> & Hk')%list_elem_of_fmap. simpl.
        rewrite Forall_forall in Hlt, HD. specialize (Hlt _ Hk'). specialize (HD _ Hk').
        unfold in_range in HD. lia.
      * rewrite length_delete by (apply lookup_lt_is_Some; lia).
        rewrite Forall_forall in Hlt, HD |- *. intros k Hk'.
        specialize (Hlt _ Hk'). specialize (HD _ Hk'). unfold in_range in *. lia.
Qed.

Lemma StronglySorted_reverse {A} (R : relation A) l :
  StronglySorted R l → StronglySorted (flip R) (reverse l).
Proof.
  induction 1 as [|x l Hl IH Hx]; [constructor|].
  rewrite reverse_cons.
  apply StronglySorted_app_2; [|done|by repeat constructor].
  intros x1 x2 H1 H2. rewrite elem_of_reverse in H1.
  apply list_elem_of_singleton in H2. subst.
  rewrite Forall_forall in Hx. unfold flip. by apply Hx.
Qed.

Lemma reversed_sorted_desc ks : NoDup ks → desc (reversed (sorted ks)).
Proof.
  intros Hnd. unfold desc, reversed, sorted.
  assert (StronglySorted Z.lt (merge_sort Z.le ks)) as Hs.
  { assert (NoDup (merge_sort Z.le ks)) as Hnd'
      by (by rewrite merge_sort_Permutation).
    assert (StronglySorted Z.le (merge_sort Z.le ks)) as Hle
      by (apply StronglySorted_merge_sort; apply _).
    induction Hle as [|x l Hl IH Hx]; [constructor|].
    apply NoDup_cons in Hnd' as [Hx' Hnd']. constructor; [by apply IH|].
    rewrite Forall_forall in Hx |- *. intros y Hy. specialize (Hx _ Hy).
    assert (x ≠ y) by (intros ->; done). lia. }
  apply StronglySorted_reverse in Hs. done.
Qed.

Lemma reversed_sorted_Permutation ks : reversed (sorted ks) ≡ₚ ks.
Proof. unfold reversed, sorted. by rewrite reverse_Permutation, merge_sort_Permutation. Qed.

Lemma spec_shape_perm kd A B s : A ≡ₚ B → spec_shape kd A s = spec_shape kd B s.
Proof.
  intros H. apply at_axes_from_ext. intros q _. by rewrite H.
Qed.

Lemma getitem_Some {A} (l : list A) i x : l !! i = Some x → getitem l i = Ok x.
Proof. intros H. unfold getitem. by rewrite H. Qed.

Lemma reshape_loop_singleton k s w : reshape_loop [k] s w = reshape_step s k w.
Proof.
  simpl. unfold mbind, M_bind. by destruct (reshape_step s k w) as [[?|?] ?].
Qed.

Lemma reshape_shape w a kd s :
  keepdims (self w) = Some kd → valid_axis (length s) a →
  match a with
  | AxisInt k => reshape_step s k
  | AxisSeq ks => reshape_loop (reversed (sorted ks)) s
  end w = (Ok (spec_shape kd (axis_set a) s), w).
Proof.
  intros Hk Hv. destruct a as [k|ks]; simpl in *.
  - rewrite <- reshape_loop_singleton.
    rewrite (reshape_loop_desc [k] _ _ kd); [done|done| |].
    + by constructor.
    + repeat constructor.
  - destruct Hv as [Hr Hnd].
    rewrite (reshape_loop_desc _ _ _ kd); [|done| |by apply reversed_sorted_desc].
    + f_equal. f_equal. apply spec_shape_perm.
      by rewrite reversed_sorted_Permutation.
    + by rewrite reversed_sorted_Permutation.
Qed.

Lemma reshape_ok w a kd b t :
  axis (self w) = Some a → keepdims (self w) = Some kd →
  bottom w !! 0 = Some b → top w !! 0 = Some t →
  count b ≠ 0 → valid_axis (length (shape b)) a →
  reshape w =
    (Ok (), with_top w (<[0:=blob_reshape (spec_shape kd (axis_set a) (shape b)) t]> (top w))).
Proof.
  intros Ha Hk Hb Ht Hc Hv. unfold reshape.
  rewrite (bind_Ok _ _ w (bottom w) w) by done.
  rewrite (bind_Ok _ _ w b w) by (unfold lift; by rewrite (getitem_Some _ _ _ Hb)).
  rewrite decide_False by done.
  rewrite (bind_Ok _ _ w a w) by (by apply attr_Some).
  rewrite (bind_Ok _ _ w _ w (reshape_shape w a kd _ Hk Hv)).
  rewrite (bind_Ok _ _ w (top w) w) by done.
  rewrite (bind_Ok _ _ w t w) by (unfold lift; by rewrite (getitem_Some _ _ _ Ht)).
  done.
Qed.

(** indices and ravel *)

Lemma bind_seq_blocks n sz : seq 0 n ≫= (λ i, seq (i * sz) sz) = seq 0 (n * sz).
Proof.
  induction n as [|n IH]; [done|].
  rewrite seq_S, bind_app, IH. simpl. rewrite app_nil_r.
  rewrite (Nat.add_comm sz (n * sz)), seq_app. done.
Qed.

Lemma list_bind_ext_in {A B} (f g : A → list B) l :
  (∀ x, x ∈ l → f x = g x) → l ≫= f = l ≫= g.
Proof.
  induction l as [|x l IH]; intros H; [done|]. rewrite !bind_cons.
  rewrite (H x) by (by left). rewrite IH; [done|]. intros y Hy. apply H. by right.
Qed.

Lemma list_fmap_bind' {A B C} (f : A → list B) (g : B → C) l :
  g <$> (l ≫= f) = l ≫= (λ x, g <$> f x).
Proof.
  induction l as [|x l IH]; [done|]. rewrite !bind_cons. by rewrite fmap_app, IH.
Qed.

Lemma fmap_ravel_indices s : ravel s <$> indices s = seq 0 (size_of s).
Proof.
  induction s as [|n s IH]; [done|]. simpl.
  rewrite list_fmap_bind'.
  rewrite <- bind_seq_blocks. apply list_bind_ext_in. intros i _.
  rewrite <- list_fmap_compose.
  replace (seq (i * size_of s) (size_of s)) with (Nat.add (i * size_of s) <$> seq 0 (size_of s))
    by (rewrite fmap_add_seq; f_equal; lia).
  rewrite <- IH, <- list_fmap_compose. done.
Qed.

Lemma length_indices s : length (indices s) = size_of s.
Proof. by rewrite <- (length_fmap (ravel s)), fmap_ravel_indices, length_seq. Qed.

Lemma lookup_indices_ravel s idx :
  idx ∈ indices s → indices s !! ravel s idx = Some idx.
Proof.
  intros [i Hi]%list_elem_of_lookup.
  assert ((ravel s <$> indices s) !! i = Some (ravel s idx)) as H
    by (by rewrite list_lookup_fmap, Hi).
  rewrite fmap_ravel_indices in H. apply lookup_seq in H as [-> _]. done.
Qed.

Lemma lookup_fmap_indices {B} (f : list nat → B) s idx :
  idx ∈ indices s → (f <$> indices s) !! ravel s idx = Some (f idx).
Proof. intros H. by rewrite list_lookup_fmap, lookup_indices_ravel. Qed.

Lemma elem_of_indices s idx : idx ∈ indices s ↔ Forall2 lt idx s.
Proof.
  revert idx. induction s as [|n s IH]; intros idx; simpl.
  - rewrite list_elem_of_singleton. split; [intros ->; constructor|by inversion 1].
  - rewrite list_elem_of_bind. split.
    + intros (i & Hin & Hi). apply list_elem_of_fmap in Hin as (idx' & -> & Hin).
      apply elem_of_seq in Hi. constructor; [lia|by apply IH].
    + inversion 1 as [|i ? idx' ? Hi Hidx]; subst. exists i. split.
      * apply list_elem_of_fmap. exists idx'. split; [done|by apply IH].
      * apply elem_of_seq. lia.
Qed.

Lemma fmap_nth_seq (d : list Qc) :
  (λ i, nth i d 0%Qc) <$> seq 0 (length d) = d.
Proof.
  apply list_eq. intros i. rewrite list_lookup_fmap.
  destruct (decide (i < length d)) as [Hi|Hi].
  - rewrite lookup_seq_lt by done. simpl.
    destruct (lookup_lt_is_Some_2 d i Hi) as [x Hx].
    by rewrite (nth_lookup_Some _ _ _ _ Hx), Hx.
  - rewrite lookup_seq_ge by lia. simpl. symmetry. apply lookup_ge_None. lia.
Qed.

(** broadcasting a value of the shape of its target *)

Lemma strip_ones_0 s : strip_ones 0 s = s.
Proof. by destruct s. Qed.

Lemma broadcastable_refl s : broadcastable s s.
Proof.
  split; [done|]. rewrite Nat.sub_diag, drop_0.
  induction s; constructor; auto.
Qed.

Lemma bcast_index_same s idx : Forall2 lt idx s → bcast_index s idx = idx.
Proof.
  intros H. unfold bcast_index.
  rewrite (Forall2_length _ _ _ H), Nat.sub_diag, drop_0.
  induction H as [|i n idx s Hi H IH]; [done|]. simpl. rewrite IH. f_equal.
  destruct (decide (n = 1)); [lia|done].
Qed.

Lemma setitem_same_shape s d0 d :
  length d = size_of s →
  setitem_ellipsis (NdArray s d0) (NdArray s d) = Ok (NdArray s d).
Proof.
  intros Hd. unfold setitem_ellipsis. simpl.
  rewrite Nat.sub_diag, strip_ones_0.
  rewrite decide_True by apply broadcastable_refl. f_equal. f_equal.
  etrans; [|apply (fmap_nth_seq d)]. rewrite Hd, <- fmap_ravel_indices.
  rewrite <- list_fmap_compose. apply list_fmap_ext.
  intros i idx Hidx. simpl. rewrite bcast_index_same; [done|].
  apply elem_of_indices. by eapply list_elem_of_lookup_2.
Qed.

(** the axes of a valid specification *)

Lemma normalize_axis_index_nonneg k ndim :
  (0 ≤ k < Z.of_nat ndim)%Z → normalize_axis_index k ndim = Ok (Z.to_nat k).
Proof.
  intros H. unfold normalize_axis_index.
  rewrite decide_True by lia. by rewrite decide_False by lia.
Qed.

Lemma normalize_axis_tuple_nonneg ks ndim :
  Forall (λ k, 0 ≤ k < Z.of_nat ndim)%Z ks →
  normalize_axis_tuple ks ndim = Ok (Z.to_nat <$> ks).
Proof.
  induction 1 as [|k ks Hk H IH]; [done|]. simpl.
  by rewrite normalize_axis_index_nonneg, IH.
Qed.

Lemma reduce_axes_valid c a ndim :
  valid_axis ndim a → reduce_axes c a ndim = Ok (axis_set a).
Proof.
  destruct a as [k|ks]; simpl.
  - intros H. rewrite decide_False by lia. by rewrite normalize_axis_index_nonneg.
  - intros [Hr Hnd]. rewrite normalize_axis_tuple_nonneg by done. simpl.
    rewrite decide_True; [done|].
    apply NoDup_fmap_2_strong; [|done].
    intros x y Hx Hy Heq. rewrite Forall_forall in Hr.
    apply Hr in Hx, Hy. lia.
Qed.

Lemma NoDup_axis_set ndim a : valid_axis ndim a → NoDup (axis_set a).
Proof.
  destruct a as [k|ks]; simpl.
  - intros _. apply NoDup_singleton.
  - intros [Hr Hnd]. apply NoDup_fmap_2_strong; [|done].
    intros x y Hx Hy Heq. rewrite Forall_forall in Hr.
    apply Hr in Hx, Hy. lia.
Qed.

(** masks and positions *)

Lemma reduced_shape_mask_from p kd A s :
  reduced_shape kd s (mask_from p (length s) A) = at_axes_from p kd A 1 s.
Proof.
  revert p. induction s as [|n s IH]; intros p; [done|]. simpl.
  rewrite <- IH. unfold mask_from. destruct (decide (p ∈ A)) as [Hp|Hp].
  - rewrite bool_decide_eq_true_2 by done. by destruct kd.
  - by rewrite bool_decide_eq_false_2 by done.
Qed.

(** fibres *)

Lemma filter_bind {A B} (P : B → Prop) `{!∀ x, Decision (P x)} (f : A → list B)
    (l : list A) :
  filter P (l ≫= f) = l ≫= (λ x, filter P (f x)).
Proof.
  induction l as [|x l IH]; [done|]. by rewrite !bind_cons, filter_app, IH.
Qed.

Lemma filter_fmap_cons (P : list nat → Prop) `{!∀ x, Decision (P x)} (j : nat)
    (l : list (list nat)) :
  filter P ((j ::.) <$> l) = (j ::.) <$> filter (λ f, P (j :: f)) l.
Proof.
  induction l as [|x l IH]; [done|]. rewrite fmap_cons, !filter_cons, IH.
  by destruct (decide (P (j :: x))).
Qed.

Lemma bind_pick {B} (i : nat) (X : list B) (l : list nat) :
  NoDup l → i ∈ l → l ≫= (λ j, if decide (j = i) then X else []) = X.
Proof.
  induction 1 as [|j l Hj Hl IH]; [by intros ?%elem_of_nil|].
  rewrite bind_cons. intros [->|Hi]%elem_of_cons.
  - rewrite decide_True by done.
    rewrite (list_bind_ext_in _ (λ _, [])).
    + clear. induction l; [by rewrite app_nil_r|done].
    + intros k Hk. rewrite decide_False; [done|]. by intros ->.
  - rewrite decide_False by (by intros ->). by rewrite IH.
Qed.

Lemma mask_from_cons p n A :
  mask_from p (S n) A = bool_decide (p ∈ A) :: mask_from (S p) n A.
Proof. done. Qed.

Lemma filter_False {B} (l : list B) : filter (λ _, False) l = [].
Proof. induction l as [|x l IH]; [done|]. rewrite filter_cons_False; tauto. Qed.

Lemma fibre_filter p kd A s idx :
  idx ∈ indices (at_axes_from p kd A 1 s) →
  fibre kd s (mask_from p (length s) A) idx =
  filter (λ full, at_axes_from p kd A 0 full = idx) (indices s).
Proof.
  revert p idx. induction s as [|n s IH]; intros p idx Hidx.
  - simpl in *. apply list_elem_of_singleton in Hidx as ->. done.
  - cbn [length indices at_axes_from] in *. rewrite mask_from_cons, filter_bind.
    destruct (decide (p ∈ A)) as [Hp|Hp].
    + rewrite bool_decide_eq_true_2 by done. cbn [fibre].
      apply list_bind_ext_in. intros j _. rewrite filter_fmap_cons.
      cbn [at_axes_from]. rewrite decide_True by done. destruct kd.
      * cbn [indices app] in Hidx.
        apply list_elem_of_bind in Hidx as (i & Hidx & Hi).
        apply list_elem_of_fmap in Hidx as (idx' & -> & Hidx).
        apply elem_of_seq in Hi. assert (i = 0) as -> by lia. cbn [tail app].
        rewrite (IH (S p) idx') by done. f_equal.
        apply list_filter_iff. intros full. split; [by intros ->|by intros [=]].
      * cbn [app] in *. by rewrite (IH (S p) idx).
    + rewrite bool_decide_eq_false_2 by done. cbn [fibre indices app] in *.
      apply list_elem_of_bind in Hidx as (i & Hidx & Hi).
      apply list_elem_of_fmap in Hidx as (idx' & -> & Hidx).
      rewrite (IH (S p) idx') by done.
      rewrite <- (bind_pick i _ (seq 0 n)); [|apply NoDup_seq|done].
      apply list_bind_ext_in. intros j _. rewrite filter_fmap_cons.
      cbn [at_axes_from]. rewrite (decide_False (P := p ∈ A)) by done. cbn [app].
      destruct (decide (j = i)) as [->|Hji].
      * f_equal. apply list_filter_iff. intros full.
        split; [by intros ->|by intros [=]].
      * rewrite (list_filter_iff _ (λ _, False)); [by rewrite filter_False|].
        intros full; split; [by intros [=]|done].
Qed.

Lemma select_mask_from_nonzero p A s :
  size_of s ≠ 0 → 0 ∉ select (mask_from p (length s) A) s.
Proof.
  revert p. induction s as [|n s IH]; intros p Hs; [apply not_elem_of_nil|].
  cbn [length]. rewrite mask_from_cons. simpl in Hs.
  destruct (bool_decide (p ∈ A)); cbn [select].
  - rewrite not_elem_of_cons. split; [lia|]. apply IH. lia.
  - apply IH. lia.
Qed.

Lemma length_bind_const {A B} (f : A → list B) (l : list A) m :
  (∀ x, length (f x) = m) → length (l ≫= f) = length l * m.
Proof.
  intros Hf. induction l as [|x l IH]; [done|].
  rewrite bind_cons, length_app, Hf, IH. done.
Qed.

Lemma length_fibre p kd A s idx :
  idx ∈ indices (at_axes_from p kd A 1 s) →
  length (fibre kd s (mask_from p (length s) A) idx) =
  size_of (select (mask_from p (length s) A) s).
Proof.
  revert p idx. induction s as [|n s IH]; intros p idx Hidx; [done|].
  cbn [length at_axes_from] in *. rewrite mask_from_cons.
  destruct (decide (p ∈ A)) as [Hp|Hp].
  - rewrite bool_decide_eq_true_2 by done. cbn [fibre select size_of foldr].
    rewrite (length_bind_const _ _ (size_of (select (mask_from (S p) (length s) A) s))).
    + by rewrite length_seq.
    + intros j. rewrite length_fmap. apply IH. destruct kd; [|done].
      cbn [indices app] in Hidx.
      apply list_elem_of_bind in Hidx as (i & Hidx & Hi).
      by apply list_elem_of_fmap in Hidx as (idx' & -> & Hidx).
  - rewrite bool_decide_eq_false_2 by done. cbn [fibre select indices app] in *.
    apply list_elem_of_bind in Hidx as (i & Hidx & Hi).
    apply list_elem_of_fmap in Hidx as (idx' & -> & Hidx).
    rewrite length_fmap. by apply IH.
Qed.

(** folds *)








(** the reductions on a valid axis specification *)

Lemma np_reduce_valid c a ax kd :
  valid_axis (length (nd_shape a)) ax → size_of (nd_shape a) ≠ 0 →
  np_reduce c a ax kd =
    Ok (NdArray (spec_shape kd (axis_set ax) (nd_shape a))
          (reduced_values c kd (axis_set ax) a (spec_shape kd (axis_set ax) (nd_shape a)))).
Proof.
  intros Hv Hs. unfold np_reduce. rewrite reduce_axes_valid by done.
  cbn [mbind result_bind].
  change (axes_mask (length (nd_shape a)) (axis_set ax))
    with (mask_from 0 (length (nd_shape a)) (axis_set ax)).
  rewrite decide_False
    by (intros [_ H]; by apply (select_mask_from_nonzero 0 (axis_set ax)) in H).
  rewrite reduced_shape_mask_from. f_equal. f_equal.
  apply list_fmap_ext. intros i idx Hidx%list_elem_of_lookup_2.
  unfold sharing, project. rewrite length_fmap.
  rewrite <- fibre_filter by done. by rewrite length_fibre.
Qed.

Lemma length_reduced_values c kd A a s : length (reduced_values c kd A a s) = size_of s.
Proof. unfold reduced_values. by rewrite length_fmap, length_indices. Qed.


Lemma lift_Ok {A} (r : result A) a w : r = Ok a → lift r w = (Ok a, w).
Proof. by intros ->. Qed.

Lemma forward_ok w a kd b t :
  axis (self w) = Some a → keepdims (self w) = Some kd →
  bottom w !! 0 = Some b → top w !! 0 = Some t →
  valid_axis (length (shape b)) a → count b ≠ 0 →
  shape t = spec_shape kd (axis_set a) (shape b) →
  forward w =
    (Ok (), with_top w (<[0:={| shape := shape t;
                               data := reduced_values (cls (self w)) kd (axis_set a)
                                         (data_of b) (shape t);
                               diff := diff t |}]> (top w))).
Proof.
  intros Ha Hk Hb Ht Hv Hc Hs. unfold forward.
  rewrite (bind_Ok _ _ w (cls (self w)) w) by done.
  rewrite (bind_Ok _ _ w (bottom w) w) by done.
  rewrite (bind_Ok _ _ w b w) by (unfold lift; by rewrite (getitem_Some _ _ _ Hb)).
  rewrite (bind_Ok _ _ w a w) by (by apply attr_Some).
  rewrite (bind_Ok _ _ w kd w) by (by apply attr_Some).
  rewrite (bind_Ok _ _ w _ w (lift_Ok _ _ w (np_reduce_valid _ (data_of b) a kd Hv Hc))).
  rewrite (bind_Ok _ _ w (top w) w) by done.
  rewrite (bind_Ok _ _ w t w) by (unfold lift; by rewrite (getitem_Some _ _ _ Ht)).
  cbn [data_of nd_shape]. rewrite <- Hs.
  rewrite (bind_Ok _ _ w _ w
    (lift_Ok _ _ w (setitem_same_shape (shape t) (data t) _
       (length_reduced_values _ _ _ _ _)))).
  done.
Qed.

(** ranks *)

Lemma length_at_axes_from_drop {T} p A (u : T) l :
  length (at_axes_from p false A u l)
  + length (filter (λ q, q ∈ A) (seq p (length l))) = length l.
Proof.
  revert p. induction l as [|x l IH]; intros p; [done|].
  cbn [at_axes_from length seq]. rewrite filter_cons, length_app.
  specialize (IH (S p)). destruct (decide (p ∈ A)); simpl; lia.
Qed.

Lemma length_spec_shape_drop A s :
  NoDup A → Forall (λ q, q < length s) A →
  length (spec_shape false A s) = length s - length A.
Proof.
  intros Hnd Hr. pose proof (length_at_axes_from_drop 0 A 1 s) as H.
  assert (filter (λ q, q ∈ A) (seq 0 (length s)) ≡ₚ A) as Hp.
  { apply NoDup_Permutation; [apply NoDup_filter, NoDup_seq|done|].
    intros q. rewrite list_elem_of_filter, elem_of_seq.
    rewrite Forall_forall in Hr. split; [tauto|]. intros Hq.
    specialize (Hr _ Hq). split; [done|lia]. }
  rewrite Hp in H. unfold spec_shape. lia.
Qed.

Lemma valid_axis_set_range ndim a :
  valid_axis ndim a → Forall (λ q, q < ndim) (axis_set a).
Proof.
  destruct a as [k|ks]; simpl.
  - intros H. apply Forall_singleton. lia.
  - intros [Hr _]. apply Forall_fmap. eapply Forall_impl; [done|].
    intros k Hk. simpl in *. lia.
Qed.

Lemma remove_dups_NoDup {A} `{EqDecision A} (l : list A) :
  NoDup l → remove_dups l = l.
Proof.
  induction 1 as [|x l Hx Hl IH]; [done|]. simpl.
  case_decide; [done|]. by rewrite IH.
Qed.

(** values compared by their canonical fractions *)

Lemma Qc_list_eq (l1 l2 : list Qc) : this <$> l1 = this <$> l2 → l1 = l2.
Proof.
  revert l2. induction l1 as [|x l1 IH]; intros [|y l2]; try done.
  rewrite !fmap_cons. intros [= Hxy Hl]. f_equal; [|by apply IH].
  apply Qc_is_canon. by rewrite Hxy.
Qed.


(** reshape and forward in sequence *)

Lemma reshape_forward_ok w a kd b t :
  axis (self w) = Some a → keepdims (self w) = Some kd →
  bottom w = [b] → top w = [t] →
  count b ≠ 0 → valid_axis (length (shape b)) a →
  (reshape;; forward) w = (Ok (), with_top w [reduced_blob (cls (self w)) kd a b t]).
Proof.
  intros Ha Hk Hb Ht Hc Hv.
  assert (bottom w !! 0 = Some b) as Hb0 by (by rewrite Hb).
  assert (top w !! 0 = Some t) as Ht0 by (by rewrite Ht).
  rewrite (bind_Ok _ _ w () _ (reshape_ok w a kd b t Ha Hk Hb0 Ht0 Hc Hv)).
  rewrite Ht. cbn [list_insert insert].
  set (t0 := blob_reshape _ t).
  rewrite (forward_ok (with_top w [t0]) a kd b t0); done.
Qed.


Lemma reshape_ok_single w a kd b t :
  axis (self w) = Some a → keepdims (self w) = Some kd →
  bottom w = [b] → top w = [t] →
  count b ≠ 0 → valid_axis (length (shape b)) a →
  reshape w =
    (Ok (), with_top w [blob_reshape (spec_shape kd (axis_set a) (shape b)) t]).
Proof.
  intros Ha Hk Hb Ht Hc Hv.
  rewrite (reshape_ok w a kd b t Ha Hk); [by rewrite Ht|by rewrite Hb|by rewrite Ht|done|done].
Qed.

(** keep-dims and squeezing *)





Lemma output_reshape_forward w a kd b t :
  axis (self w) = Some a → keepdims (self w) = Some kd →
  bottom w = [b] → top w = [t] →
  count b ≠ 0 → valid_axis (length (shape b)) a →
  output (reshape;; forward) w =
    Ok (NdArray (spec_shape kd (axis_set a) (shape b))
          (reduced_values (cls (self w)) kd (axis_set a) (data_of b)
             (spec_shape kd (axis_set a) (shape b)))).
Proof.
  intros Ha Hk Hb Ht Hc Hv. unfold output.
  by rewrite (reshape_forward_ok w a kd b t).
Qed.





(** gradients *)

Lemma Qc_lists_eq (l1 l2 : list (list Qc)) :
  (λ l : list Qc, this <$> l) <$> l1 = (λ l : list Qc, this <$> l) <$> l2 → l1 = l2.
Proof.
  revert l2. induction l1 as [|x l1 IH]; intros [|y l2]; try done.
  rewrite !fmap_cons. intros [= Hxy Hl]. f_equal; [by apply Qc_list_eq|by apply IH].
Qed.

(** * Properties of the specification *)



(** C2.  On an input that is not empty and a valid axis specification,
    [reshape] gives the output the input shape with each named dimension
    set to 1 (keepdims) or removed (no keepdims): its rank is the rank of
    the input, or that rank less the number of distinct axes. *)
Theorem reshape_output_rank w a kd b t :
  axis (self w) = Some a → keepdims (self w) = Some kd →
  bottom w = [b] → top w = [t] →
  count b ≠ 0 → valid_axis (length (shape b)) a →
  ∃ t', reshape w = (Ok (), with_top w [t'])
    ∧ shape t' = spec_shape kd (axis_set a) (shape b)
    ∧ length (shape t') =
        if kd then length (shape b)
        else length (shape b) - length (remove_dups (axis_set a)).
Proof.
  intros Ha Hk Hb Ht Hc Hv.
  exists (blob_reshape (spec_shape kd (axis_set a) (shape b)) t).
  split; [by apply reshape_ok_single|]. split; [done|].
  cbn [blob_reshape shape]. destruct kd.
  - apply length_at_axes_from_keep.
  - rewrite remove_dups_NoDup by (by eapply NoDup_axis_set).
    apply length_spec_shape_drop; [by eapply NoDup_axis_set|by apply valid_axis_set_range].
Qed.

Lemma reshape_output_rank_witness :
  ∃ t', reshape (configured Mean (Params None None) (AxisSeq [2%Z; 0%Z]) false
                   [Blob [2; 3; 4] [] []] [fresh_top])
        = (Ok (), with_top (configured Mean (Params None None) (AxisSeq [2%Z; 0%Z]) false
                              [Blob [2; 3; 4] [] []] [fresh_top]) [t'])
    ∧ shape t' = spec_shape false [2; 0] [2; 3; 4]
    ∧ length (shape t') = 3 - length (remove_dups [2; 0]).
Proof.
  apply (reshape_output_rank
           (configured Mean (Params None None) (AxisSeq [2%Z; 0%Z]) false
              [Blob [2; 3; 4] [] []] [fresh_top])
           (AxisSeq [2%Z; 0%Z]) false (Blob [2; 3; 4] [] []) fresh_top).
  - reflexivity.
  - reflexivity.
  - reflexivity.
  - reflexivity.
  - vm_compute. lia.
  - split.
    + repeat constructor; simpl; lia.
    + apply (bool_decide_unpack _). vm_compute. reflexivity.
Defined.

(** C3.  The backward scenario of the specification, evaluated: after [setup], [reshape] and
    [forward] of [Sum] with axis=1 and keepdims=false on the input of shape
    [2,3], the output has shape [2], and [backward] with the output
    gradient [1,1] raises [ValueError] and writes nothing, since a value of
    shape (2,) does not broadcast to (2,3).  On a square input of shape
    [2,2] the assignment goes through along the wrong axis: the gradient
    [1,2] gives [[1,2],[1,2]], not [[1,1],[2,2]].  With keepdims=true the
    same gradient is broadcast as intended. *)
Theorem sum_backward_without_keepdims :
  let w := before_backward Sum (AxisInt 1) false [2; 3] (qs [1; 2; 3; 4; 5; 6]) (qs [1; 1]) in
  let w2 := before_backward Sum (AxisInt 1) false [2; 2] (qs [1; 2; 3; 4]) (qs [1; 2]) in
  let wk := before_backward Sum (AxisInt 1) true [2; 3] (qs [1; 2; 3; 4; 5; 6]) (qs [1; 2]) in
  shape <$> top w = [[2]]
  ∧ backward [true] w = (Raise ValueError, w)
  ∧ (backward [true] w2).1 = Ok ()
  ∧ diff <$> bottom (backward [true] w2).2 = [qs [1; 2; 1; 2]]
  ∧ shape <$> top wk = [[2; 1]]
  ∧ (backward [true] wk).1 = Ok ()
  ∧ diff <$> bottom (backward [true] wk).2 = [qs [1; 1; 1; 2; 2; 2]].
Proof.
  cbv zeta. split; [by vm_compute|]. split; [by vm_compute|]. split; [by vm_compute|].
  split; [apply Qc_lists_eq; by vm_compute|].
  split; [by vm_compute|]. split; [by vm_compute|].
  apply Qc_lists_eq. by vm_compute.
Qed.

(** C4.  [backward] evaluated for each class on the input [[1,2,3],[4,5,6]]
    with axis=1: with keepdims=true and the output gradient [[1],[1]] every
    class, [Mean], [Prod], [Min] and [Max] included, writes the plain
    broadcast [[1,1,1],[1,1,1]], which is not the gradient 1/3 of the mean;
    with keepdims=false every class raises [ValueError]. *)
Theorem backward_is_the_same_for_every_class :
  let after c kd g := backward [true]
        (before_backward c (AxisInt 1) kd [2; 3] (qs [1; 2; 3; 4; 5; 6]) g) in
  (∀ c, (after c true (qs [1; 1])).1 = Ok ()
        ∧ diff <$> bottom (after c true (qs [1; 1])).2 = [qs [1; 1; 1; 1; 1; 1]])
  ∧ (∀ c, (after c false (qs [1; 1])).1 = Raise ValueError)
  ∧ qs [1; 1; 1; 1; 1; 1] ≠ replicate 6 (Q2Qc (1 # 3)).
Proof.
  cbv zeta. split; [|split].
  - intros c. split; [by destruct c; vm_compute|].
    apply Qc_lists_eq. by destruct c; vm_compute.
  - intros c. by destruct c; vm_compute.
  - intros H. apply (f_equal (fmap this)) in H. vm_compute in H. discriminate H.
Qed.

(** C5.  With a multi-index axis and keepdims=false the loop of [reshape]
    visits the named dimensions, all of them, in strictly descending order,
    and the output shape is the input shape with exactly the named
    dimensions removed, whatever the order they were given in; axis={0,2}
    on the shape [2,3,4] gives [3]. *)
Theorem reshape_deletes_in_descending_order :
  (∀ w ks b t,
     axis (self w) = Some (AxisSeq ks) → keepdims (self w) = Some false →
     bottom w = [b] → top w = [t] →
     count b ≠ 0 → valid_axis (length (shape b)) (AxisSeq ks) →
     StronglySorted (λ i j, j < i)%Z (reversed (sorted ks))
     ∧ reversed (sorted ks) ≡ₚ ks
     ∧ ∃ t', reshape w = (Ok (), with_top w [t'])
         ∧ shape t' = spec_shape false (Z.to_nat <$> ks) (shape b))
  ∧ (∀ c p d g t,
       shape <$> top (reshape (configured c p (AxisSeq [0; 2]%Z) false
                                 [Blob [2; 3; 4] d g] [t])).2 = [[3]]
     ∧ shape <$> top (reshape (configured c p (AxisSeq [2; 0]%Z) false
                                 [Blob [2; 3; 4] d g] [t])).2 = [[3]]).
Proof.
  split.
  - intros w ks b t Ha Hk Hb Ht Hc Hv. split; [apply reversed_sorted_desc, Hv|].
    split; [apply reversed_sorted_Permutation|].
    exists (blob_reshape (spec_shape false (Z.to_nat <$> ks) (shape b)) t). split; [|done].
    by apply (reshape_ok_single w (AxisSeq ks)).
  - intros c p d g t. split.
    + rewrite (reshape_ok_single _ (AxisSeq [0; 2]%Z) false (Blob [2; 3; 4] d g) t); try done.
      split; [repeat constructor; lia|]. apply (bool_decide_unpack _). by vm_compute.
    + rewrite (reshape_ok_single _ (AxisSeq [2; 0]%Z) false (Blob [2; 3; 4] d g) t); try done.
      split; [repeat constructor; lia|]. apply (bool_decide_unpack _). by vm_compute.
Qed.

Lemma reshape_deletes_in_descending_order_witness :
  StronglySorted (λ i j, j < i)%Z (reversed (sorted [0; 3; 1]%Z))
  ∧ reversed (sorted [0; 3; 1]%Z) ≡ₚ [0; 3; 1]%Z
  ∧ ∃ t', reshape (configured Prod (Params None None) (AxisSeq [0; 3; 1]%Z) false
                     [Blob [2; 3; 4; 5] [] []] [fresh_top])
          = (Ok (), with_top (configured Prod (Params None None) (AxisSeq [0; 3; 1]%Z) false
                                [Blob [2; 3; 4; 5] [] []] [fresh_top]) [t'])
      ∧ shape t' = spec_shape false (Z.to_nat <$> [0; 3; 1]%Z) [2; 3; 4; 5].
Proof.
  apply (proj1 reshape_deletes_in_descending_order
           (configured Prod (Params None None) (AxisSeq [0; 3; 1]%Z) false
              [Blob [2; 3; 4; 5] [] []] [fresh_top])
           [0; 3; 1]%Z (Blob [2; 3; 4; 5] [] []) fresh_top).
  - reflexivity.
  - reflexivity.
  - reflexivity.
  - reflexivity.
  - vm_compute. lia.
  - split.
    + repeat constructor; simpl; lia.
    + apply (bool_decide_unpack _). vm_compute. reflexivity.
Defined.

(** C6.  Whatever the class of the instance, [reshape] on an input with
    zero elements raises the empty-input exception, and the state is the
    one it was called in: the output is not resized. *)
Theorem reshape_rejects_empty_input w b :
  bottom w !! 0 = Some b → count b = 0 →
  reshape w = (Raise EmptyInputError, w).
Proof.
  intros Hb Hc. unfold reshape.
  rewrite (bind_Ok _ _ w (bottom w) w) by done.
  rewrite (bind_Ok _ _ w b w) by (unfold lift; by rewrite (getitem_Some _ _ _ Hb)).
  by rewrite decide_True.
Qed.

Lemma reshape_rejects_empty_input_witness :
  reshape (configured Max (Params None None) (AxisInt 1) true
             [Blob [2; 0; 3] [] []] [fresh_top])
  = (Raise EmptyInputError,
     configured Max (Params None None) (AxisInt 1) true
       [Blob [2; 0; 3] [] []] [fresh_top]).
Proof.
  apply (reshape_rejects_empty_input
           (configured Max (Params None None) (AxisInt 1) true
              [Blob [2; 0; 3] [] []] [fresh_top])
           (Blob [2; 0; 3] [] [])).
  - reflexivity.
  - reflexivity.
Defined.

(** C7.  [setup] raises one of the two arity exceptions exactly when the
    number of inputs or the number of outputs is not 1, and then changes
    nothing; with one input, one output and a payload that holds [axis]
    and [keepdims], it succeeds and its whole effect is to store these two
    on the instance. *)
Theorem setup_checks_arity w :
  ((∃ e, (setup w).1 = Raise e ∧ ConfigurationError e)
     ↔ (length (bottom w) ≠ 1 ∨ length (top w) ≠ 1))
  ∧ (length (bottom w) ≠ 1 ∨ length (top w) ≠ 1 → (setup w).2 = w)
  ∧ (∀ a k,
       length (bottom w) = 1 → length (top w) = 1 →
       p_axis (param_str (self w)) = Some a →
       p_keepdims (param_str (self w)) = Some k →
       setup w =
         (Ok (), {| self := {| cls := cls (self w); param_str := param_str (self w);
                               axis := Some a; keepdims := Some k |};
                    bottom := bottom w; top := top w |})).
Proof.
  unfold setup, ConfigurationError.
  rewrite (bind_Ok _ _ w (bottom w) w) by done.
  destruct (decide (length (bottom w) ≠ 1)) as [Hb|Hb].
  { split; [|split]; [|done|done].
    split; [by left|]. intros _. eexists. split; [done|by left]. }
  rewrite (bind_Ok _ _ w (top w) w) by done.
  destruct (decide (length (top w) ≠ 1)) as [Ht|Ht].
  { split; [|split]; [|done|done].
    split; [by right|]. intros _. eexists. split; [done|by right]. }
  rewrite (bind_Ok _ _ w (param_str (self w)) w) by done.
  split; [|split].
  - split; [|intros [?|?]; done].
    intros (e & He & Hc). exfalso.
    destruct (p_axis (param_str (self w))) as [a|]; cbn in He;
      [destruct (p_keepdims (param_str (self w))) as [k|]; cbn in He|];
      first [discriminate He | injection He as <-; by destruct Hc].
  - intros [?|?]; done.
  - intros a k _ _ -> ->. done.
Qed.

Lemma setup_checks_arity_witness :
  setup (scenario Min (AxisSeq [0; 1]%Z) true (example_input []) fresh_top)
  = (Ok (), configured Min (Params (Some (AxisSeq [0; 1]%Z)) (Some true))
              (AxisSeq [0; 1]%Z) true [example_input []] [fresh_top]).
Proof.
  apply (proj2 (proj2 (setup_checks_arity
           (scenario Min (AxisSeq [0; 1]%Z) true (example_input []) fresh_top)))
           (AxisSeq [0; 1]%Z) true).
  - reflexivity.
  - reflexivity.
  - reflexivity.
  - reflexivity.
Defined.



(** C9.  When no flag of [propagate_down] is set, and so when the flag of
    the single input is not set, [backward] of every class succeeds and
    leaves the state, the gradient of the input included, as it was. *)
Theorem backward_without_propagation n w :
  backward (replicate n false) w = (Ok (), w).
Proof.
  unfold backward. generalize 0. induction n as [|n IH]; intros i; [done|].
  cbn [replicate backward_loop negb].
  rewrite (bind_Ok _ _ w () w) by done. apply IH.
Qed.



(** * Further properties of the hooks *)

(** ** What the hooks leave alone *)

Lemma reshape_step_state s i w : (reshape_step s i w).2 = w.
Proof.
  unfold reshape_step, mbind, M_bind, attr, lift.
  destruct (keepdims (self w)) as [[]|]; reflexivity.
Qed.

Lemma reshape_loop_state l s w : (reshape_loop l s w).2 = w.
Proof.
  revert s. induction l as [|i l IH]; intros s; [done|].
  cbn [reshape_loop]. unfold mbind, M_bind.
  pose proof (reshape_step_state s i w) as Hs.
  destruct (reshape_step s i w) as [[s'|e] w']; simpl in Hs; subst; [apply IH|done].
Qed.

Lemma reshape_step_self s i w w' :
  keepdims (self w) = keepdims (self w') →
  (reshape_step s i w).1 = (reshape_step s i w').1.
Proof.
  intros H. unfold reshape_step, mbind, M_bind, attr, lift. rewrite <- H.
  destruct (keepdims (self w)) as [[]|]; reflexivity.
Qed.

Lemma reshape_loop_self l s w w' :
  keepdims (self w) = keepdims (self w') →
  (reshape_loop l s w).1 = (reshape_loop l s w').1.
Proof.
  intros H. revert s. induction l as [|i l IH]; intros s; [done|].
  cbn [reshape_loop]. unfold mbind, M_bind.
  pose proof (reshape_step_state s i w) as Hs.
  pose proof (reshape_step_state s i w') as Hs'.
  pose proof (reshape_step_self s i w w' H) as He.
  destruct (reshape_step s i w) as [[s1|e1] w1], (reshape_step s i w') as [[s2|e2] w2];
    simpl in *; subst; try done.
  injection He as ->. apply IH.
Qed.

Lemma attr_None {A} name (f : layer → option A) w :
  f (self w) = None → attr name f w = (Raise (AttributeError name), w).
Proof. intros H. unfold attr. by rewrite H. Qed.

Lemma new_shape_state a s w : (new_shape a s w).2 = w.
Proof. destruct a; [apply reshape_step_state|apply reshape_loop_state]. Qed.

Lemma new_shape_self a s w w' :
  keepdims (self w) = keepdims (self w') →
  (new_shape a s w).1 = (new_shape a s w').1.
Proof. destruct a; [apply reshape_step_self|apply reshape_loop_self]. Qed.

Lemma reshape_unfold w :
  reshape w =
    match bottom w !! 0 with
    | None => (Raise IndexError, w)
    | Some b =>
        if decide (count b = 0) then (Raise EmptyInputError, w)
        else match axis (self w) with
             | None => (Raise (AttributeError "axis"), w)
             | Some a =>
                 match (new_shape a (shape b) w).1 with
                 | Raise e => (Raise e, w)
                 | Ok s =>
                     match top w !! 0 with
                     | None => (Raise IndexError, w)
                     | Some t => (Ok (), with_top w (<[0:=blob_reshape s t]> (top w)))
                     end
                 end
             end
    end.
Proof.
  unfold reshape.
  rewrite (bind_Ok _ _ w (bottom w) w) by done.
  unfold getitem. destruct (bottom w !! 0) as [b|]; [|done].
  rewrite (bind_Ok _ _ w b w) by done.
  destruct (decide (count b = 0)); [done|].
  destruct (axis (self w)) as [a|] eqn:Ha.
  2: { by rewrite (bind_Raise _ _ w _ w (attr_None _ _ _ Ha)). }
  rewrite (bind_Ok _ _ w a w) by (by apply attr_Some).
  fold (new_shape a (shape b)).
  pose proof (new_shape_state a (shape b) w) as Hs.
  destruct (new_shape a (shape b) w) as [[s|e] w'] eqn:Hn; simpl in Hs; subst w'.
  2: { by rewrite (bind_Raise _ _ w e w). }
  rewrite (bind_Ok _ _ w s w) by done. cbn [fst].
  rewrite (bind_Ok _ _ w (top w) w) by done.
  destruct (top w !! 0) as [t|]; [|done].
  by rewrite (bind_Ok _ _ w t w).
Qed.

Lemma forward_unfold_all w :
  forward w =
    match bottom w !! 0 with
    | None => (Raise IndexError, w)
    | Some b =>
        match axis (self w) with
        | None => (Raise (AttributeError "axis"), w)
        | Some a =>
            match keepdims (self w) with
            | None => (Raise (AttributeError "keepdims"), w)
            | Some kd =>
                match np_reduce (cls (self w)) (data_of b) a kd with
                | Raise e => (Raise e, w)
                | Ok v =>
                    match top w !! 0 with
                    | None => (Raise IndexError, w)
                    | Some t =>
                        match setitem_ellipsis (data_of t) v with
                        | Raise e => (Raise e, w)
                        | Ok r =>
                            (Ok (), with_top w
                                      (<[0:={| shape := shape t; data := nd_data r;
                                               diff := diff t |}]> (top w)))
                        end
                    end
                end
            end
        end
    end.
Proof.
  unfold forward.
  rewrite (bind_Ok _ _ w (cls (self w)) w) by done.
  rewrite (bind_Ok _ _ w (bottom w) w) by done.
  unfold getitem. destruct (bottom w !! 0) as [b|]; [|done].
  rewrite (bind_Ok _ _ w b w) by done.
  destruct (axis (self w)) as [a|] eqn:Ha.
  2: { by rewrite (bind_Raise _ _ w _ w (attr_None _ _ _ Ha)). }
  rewrite (bind_Ok _ _ w a w) by (by apply attr_Some).
  destruct (keepdims (self w)) as [kd|] eqn:Hk.
  2: { by rewrite (bind_Raise _ _ w _ w (attr_None _ _ _ Hk)). }
  rewrite (bind_Ok _ _ w kd w) by (by apply attr_Some).
  destruct (np_reduce (cls (self w)) (data_of b) a kd) as [v|e];
    [|by rewrite (bind_Raise _ _ w e w)].
  rewrite (bind_Ok _ _ w v w) by done.
  rewrite (bind_Ok _ _ w (top w) w) by done.
  destruct (top w !! 0) as [t|]; [|done].
  rewrite (bind_Ok _ _ w t w) by done.
  destruct (setitem_ellipsis (data_of t) v) as [r|e];
    [|by rewrite (bind_Raise _ _ w e w)].
  by rewrite (bind_Ok _ _ w r w).
Qed.

Lemma backward_step_unfold i w :
  backward_step i w =
    match top w !! i with
    | None => (Raise IndexError, w)
    | Some t =>
        match getitem_slice (diff_of t) with
        | Raise e => (Raise e, w)
        | Ok g =>
            match bottom w !! i with
            | None => (Raise IndexError, w)
            | Some b =>
                match setitem_ellipsis (diff_of b) g with
                | Raise e => (Raise e, w)
                | Ok r =>
                    (Ok (), {| self := self w;
                               bottom := <[i:={| shape := shape b; data := data b;
                                                  diff := nd_data r |}]> (bottom w);
                               top := top w |})
                end
            end
        end
    end.
Proof.
  unfold backward_step.
  rewrite (bind_Ok _ _ w (top w) w) by done.
  unfold getitem. destruct (top w !! i) as [t|]; [|done].
  rewrite (bind_Ok _ _ w t w) by done.
  destruct (getitem_slice (diff_of t)) as [g|e]; [|by rewrite (bind_Raise _ _ w e w)].
  rewrite (bind_Ok _ _ w g w) by done.
  rewrite (bind_Ok _ _ w (bottom w) w) by done.
  destruct (bottom w !! i) as [b|]; [|done].
  rewrite (bind_Ok _ _ w b w) by done.
  destruct (setitem_ellipsis (diff_of b) g) as [r|e]; [|by rewrite (bind_Raise _ _ w e w)].
  by rewrite (bind_Ok _ _ w r w).
Qed.

Lemma backward_single w : backward [true] w = backward_step 0 w.
Proof.
  unfold backward. cbn [backward_loop negb]. unfold mbind, M_bind.
  by destruct (backward_step 0 w) as [[[]|e] w'].
Qed.

(** X2.  [reshape], [forward], and [backward] on a single slot change nothing
    when they raise: the state after the exception is the state the hook
    was called in. *)
Theorem hooks_raise_without_effect w :
  ((reshape w).1 ≠ Ok () → (reshape w).2 = w)
  ∧ ((forward w).1 ≠ Ok () → (forward w).2 = w)
  ∧ (∀ p, (backward [p] w).1 ≠ Ok () → (backward [p] w).2 = w).
Proof.
  split; [|split].
  - rewrite reshape_unfold.
    repeat (case_match; try done); case_decide; done.
  - rewrite forward_unfold_all. repeat (case_match; try done).
  - intros [|]; [|done]. rewrite backward_single, backward_step_unfold.
    repeat (case_match; try done).
Qed.

Lemma hooks_raise_without_effect_witness :
  (reshape (configured Max (Params None None) (AxisInt 5) true
              [example_input []] [fresh_top])).2
  = configured Max (Params None None) (AxisInt 5) true [example_input []] [fresh_top].
Proof.
  apply (proj1 (hooks_raise_without_effect
           (configured Max (Params None None) (AxisInt 5) true
              [example_input []] [fresh_top]))).
  vm_compute. discriminate.
Defined.

(** X3.  Whatever the state, [forward] leaves the instance and the inputs as
    they were, and of the outputs it changes neither a shape nor a
    gradient, nor any blob but the first. *)
Theorem forward_writes_only_output_data w :
  self (forward w).2 = self w
  ∧ bottom (forward w).2 = bottom w
  ∧ shape <$> top (forward w).2 = shape <$> top w
  ∧ diff <$> top (forward w).2 = diff <$> top w
  ∧ ∀ i, i ≠ 0 → top (forward w).2 !! i = top w !! i.
Proof.
  rewrite forward_unfold_all.
  destruct (bottom w !! 0) as [b|]; [|done].
  destruct (axis (self w)) as [a|]; [|done].
  destruct (keepdims (self w)) as [kd|]; [|done].
  destruct (np_reduce _ _ _ _) as [v|e]; [|done].
  destruct (top w !! 0) as [t|] eqn:Ht; [|done].
  destruct (setitem_ellipsis _ _) as [r|e]; [|done].
  cbn [snd with_top self bottom top].
  split; [done|]. split; [done|].
  rewrite !list_fmap_insert. cbn [shape diff].
  split; [|split].
  - apply list_insert_id. by rewrite list_lookup_fmap, Ht.
  - apply list_insert_id. by rewrite list_lookup_fmap, Ht.
  - intros i Hi. by apply list_lookup_insert_ne.
Qed.

Lemma forward_writes_only_output_data_witness :
  top (forward (configured Sum (Params None None) (AxisInt 1) false
                  [example_input []] [Blob [2] [] []; fresh_top])).2 !! 1
  = top (configured Sum (Params None None) (AxisInt 1) false
           [example_input []] [Blob [2] [] []; fresh_top]) !! 1.
Proof.
  apply (proj2 (proj2 (proj2 (proj2 (forward_writes_only_output_data
           (configured Sum (Params None None) (AxisInt 1) false
              [example_input []] [Blob [2] [] []; fresh_top])))))).
  lia.
Defined.

(** X4.  Whatever the state, [reshape] leaves the instance and the inputs as
    they were, keeps the number of outputs, and changes no output but the
    first. *)
Theorem reshape_touches_only_first_output w :
  self (reshape w).2 = self w
  ∧ bottom (reshape w).2 = bottom w
  ∧ length (top (reshape w).2) = length (top w)
  ∧ ∀ i, i ≠ 0 → top (reshape w).2 !! i = top w !! i.
Proof.
  rewrite reshape_unfold.
  destruct (bottom w !! 0) as [b|]; [|done].
  destruct (decide (count b = 0)); [done|].
  destruct (axis (self w)) as [a|]; [|done].
  destruct (new_shape a (shape b) w).1 as [s|e]; [|done].
  destruct (top w !! 0) as [t|] eqn:Ht; [|done].
  cbn [snd with_top self bottom top].
  split; [done|]. split; [done|]. split; [apply length_insert|].
  intros i Hi. by apply list_lookup_insert_ne.
Qed.

Lemma reshape_touches_only_first_output_witness :
  top (reshape (configured Sum (Params None None) (AxisInt 1) false
                  [example_input []] [fresh_top; fresh_top])).2 !! 1
  = top (configured Sum (Params None None) (AxisInt 1) false
           [example_input []] [fresh_top; fresh_top]) !! 1.
Proof.
  apply (proj2 (proj2 (proj2 (reshape_touches_only_first_output
           (configured Sum (Params None None) (AxisInt 1) false
              [example_input []] [fresh_top; fresh_top]))))).
  lia.
Defined.

Lemma length_resize n buf : length (resize n buf) = n.
Proof.
  unfold resize. case_decide; [rewrite length_take; lia|apply length_replicate].
Qed.

Lemma resize_resize n buf : resize n (resize n buf) = resize n buf.
Proof.
  unfold resize at 1. rewrite decide_True by (by rewrite length_resize).
  apply take_ge. by rewrite length_resize.
Qed.

Lemma blob_reshape_twice s t : blob_reshape s (blob_reshape s t) = blob_reshape s t.
Proof. unfold blob_reshape. cbn [data diff]. by rewrite !resize_resize. Qed.

(** X6.  Running [reshape] a second time changes nothing: the sequence ends as
    the first run does, in the same state. *)
Theorem reshape_idempotent w : (reshape;; reshape) w = reshape w.
Proof.
  unfold mbind, M_bind. rewrite (reshape_unfold w).
  destruct (bottom w !! 0) as [b|] eqn:Hb; [|done].
  destruct (decide (count b = 0)) as [Hc|Hc]; [done|].
  destruct (axis (self w)) as [a|] eqn:Ha; [|done].
  destruct (new_shape a (shape b) w).1 as [s|e] eqn:Hs; [|done].
  destruct (top w !! 0) as [t|] eqn:Ht; [|done].
  rewrite reshape_unfold. cbn [with_top self bottom top].
  rewrite Hb, decide_False, Ha by done.
  rewrite (new_shape_self a (shape b) _ w), Hs by done.
  rewrite list_lookup_insert_eq by (by eapply lookup_lt_Some).
  by rewrite list_insert_insert_eq, blob_reshape_twice.
Qed.



Lemma backward_step_frame k w :
  self (backward_step k w).2 = self w
  ∧ top (backward_step k w).2 = top w
  ∧ shape <$> bottom (backward_step k w).2 = shape <$> bottom w
  ∧ data <$> bottom (backward_step k w).2 = data <$> bottom w
  ∧ ∀ i, i ≠ k → bottom (backward_step k w).2 !! i = bottom w !! i.
Proof.
  rewrite backward_step_unfold.
  destruct (top w !! k) as [t|]; [|done].
  destruct (getitem_slice _) as [g|e]; [|done].
  destruct (bottom w !! k) as [b|] eqn:Hb; [|done].
  destruct (setitem_ellipsis _ _) as [r|e]; [|done].
  cbn [snd self bottom top]. split; [done|]. split; [done|].
  rewrite !list_fmap_insert. cbn [shape data].
  split; [|split].
  - apply list_insert_id. by rewrite list_lookup_fmap, Hb.
  - apply list_insert_id. by rewrite list_lookup_fmap, Hb.
  - intros i Hi. by apply list_lookup_insert_ne.
Qed.

Lemma backward_loop_frame pd k w :
  self (backward_loop k pd w).2 = self w
  ∧ top (backward_loop k pd w).2 = top w
  ∧ shape <$> bottom (backward_loop k pd w).2 = shape <$> bottom w
  ∧ data <$> bottom (backward_loop k pd w).2 = data <$> bottom w
  ∧ ∀ i, i < k ∨ pd !! (i - k) ≠ Some true →
         bottom (backward_loop k pd w).2 !! i = bottom w !! i.
Proof.
  revert k w. induction pd as [|p pd IH]; intros k w; [done|].
  cbn [backward_loop]. unfold mbind, M_bind.
  destruct p; cbn [negb].
  - destruct (backward_step_frame k w) as (Hs & Ht & Hsh & Hd & Hi).
    destruct (backward_step k w) as [[[]|e] w1]; cbn [snd] in *.
    + destruct (IH (S k) w1) as (Hs' & Ht' & Hsh' & Hd' & Hi'). cbv beta.
      split; [by rewrite Hs'|]. split; [by rewrite Ht'|]. split; [by rewrite Hsh'|].
      split; [by rewrite Hd'|]. intros i Hik.
      assert (i ≠ k).
      { intros ->. destruct Hik as [?|Hik]; [lia|]. by rewrite Nat.sub_diag in Hik. }
      rewrite Hi', Hi; [done|done|].
      destruct Hik as [?|Hik]; [left; lia|].
      destruct (decide (i < k)); [left; lia|]. right.
      replace (i - k) with (S (i - S k)) in Hik by lia. done.
    + split; [done|]. split; [done|]. split; [done|]. split; [done|].
      intros i Hik. apply Hi. intros ->.
      destruct Hik as [?|Hik]; [lia|]. by rewrite Nat.sub_diag in Hik.
  - destruct (IH (S k) w) as (Hs' & Ht' & Hsh' & Hd' & Hi').
    split; [done|]. split; [done|]. split; [done|]. split; [done|].
    intros i Hik. apply Hi'.
    destruct (decide (i < S k)); [by left|]. right.
    destruct Hik as [?|Hik]; [lia|].
    replace (i - k) with (S (i - S k)) in Hik by lia. done.
Qed.

(** X5.  Whatever the flags and the state, and also when it raises, [backward]
    leaves the instance and the outputs as they were, changes no shape and
    no value of an input, and leaves the gradient of every input whose
    flag is not set. *)
Theorem backward_writes_only_flagged_gradients pd w :
  self (backward pd w).2 = self w
  ∧ top (backward pd w).2 = top w
  ∧ shape <$> bottom (backward pd w).2 = shape <$> bottom w
  ∧ data <$> bottom (backward pd w).2 = data <$> bottom w
  ∧ ∀ i, pd !! i ≠ Some true → bottom (backward pd w).2 !! i = bottom w !! i.
Proof.
  destruct (backward_loop_frame pd 0 w) as (Hs & Ht & Hsh & Hd & Hi).
  unfold backward. repeat split; try done.
  intros i Hp. apply Hi. right. by rewrite Nat.sub_0_r.
Qed.

Lemma backward_writes_only_flagged_gradients_witness :
  bottom (backward [false; true]
            (World (Layer Sum (Params None None) None None)
               [example_input []; example_input []]
               [fresh_top; Blob [2; 1] [] (qs [1; 2])])).2 !! 0
  = Some (example_input []).
Proof.
  apply (proj2 (proj2 (proj2 (proj2 (backward_writes_only_flagged_gradients [false; true]
           (World (Layer Sum (Params None None) None None)
               [example_input []; example_input []]
               [fresh_top; Blob [2; 1] [] (qs [1; 2])])))))).
  simpl. discriminate.
Defined.

(** ** The payload of [setup] *)

(** X1.  With one input and one output, [setup] on a payload without [axis]
    raises [KeyError] and changes nothing; on a payload with [axis] and
    without [keepdims] it raises [KeyError] after [axis] has been stored
    on the instance. *)
Theorem setup_missing_key w :
  length (bottom w) = 1 → length (top w) = 1 →
  (p_axis (param_str (self w)) = None →
     setup w = (Raise (KeyError "axis"), w))
  ∧ (∀ a, p_axis (param_str (self w)) = Some a →
          p_keepdims (param_str (self w)) = None →
          setup w =
            (Raise (KeyError "keepdims"),
             {| self := {| cls := cls (self w); param_str := param_str (self w);
                           axis := Some a; keepdims := keepdims (self w) |};
                bottom := bottom w; top := top w |})).
Proof.
  intros Hb Ht. unfold setup.
  rewrite (bind_Ok _ _ w (bottom w) w) by done.
  rewrite decide_False by (by rewrite Hb; intros ?).
  rewrite (bind_Ok _ _ w (top w) w) by done.
  rewrite decide_False by (by rewrite Ht; intros ?).
  rewrite (bind_Ok _ _ w (param_str (self w)) w) by done.
  split.
  - intros ->. done.
  - intros a -> ->. done.
Qed.

Lemma setup_missing_key_witness :
  setup (World (Layer Prod (Params (Some (AxisInt 1)) None) None None)
           [example_input []] [fresh_top])
  = (Raise (KeyError "keepdims"),
     World (Layer Prod (Params (Some (AxisInt 1)) None) (Some (AxisInt 1)) None)
       [example_input []] [fresh_top]).
Proof.
  apply (proj2 (setup_missing_key
           (World (Layer Prod (Params (Some (AxisInt 1)) None) None None)
              [example_input []] [fresh_top])
           eq_refl eq_refl) (AxisInt 1)).
  - reflexivity.
  - reflexivity.
Defined.

(** ** Negative and out-of-range axes *)

Lemma py_index_in_range n k : py_in_range n k → py_index n k = Ok (py_position n k).
Proof.
  unfold py_in_range, py_index, py_position. intros H.
  destruct (decide (k < 0)%Z).
  - rewrite decide_False by lia. by rewrite decide_True by lia.
  - by rewrite decide_True by lia.
Qed.

Lemma py_index_out_of_range n k : ¬ py_in_range n k → py_index n k = Raise IndexError.
Proof.
  unfold py_in_range, py_index. intros H.
  rewrite decide_False by lia. by rewrite decide_False by lia.
Qed.

Lemma py_position_lt n k : py_in_range n k → py_position n k < n.
Proof. unfold py_in_range, py_position. intros H. case_decide; lia. Qed.

Lemma reshape_step_in_range s i w kd :
  keepdims (self w) = Some kd → py_in_range (length s) i →
  reshape_step s i w =
    (Ok (if kd then <[py_position (length s) i:=1]> s
         else delete (py_position (length s) i) s), w).
Proof.
  intros Hk Hi. unfold reshape_step.
  rewrite (bind_Ok _ _ _ _ _ (attr_Some _ _ _ _ Hk)).
  unfold lift, list_setitem, list_delitem. rewrite py_index_in_range by done.
  by destruct kd.
Qed.

Lemma reshape_step_out_of_range s i w kd :
  keepdims (self w) = Some kd → ¬ py_in_range (length s) i →
  reshape_step s i w = (Raise IndexError, w).
Proof.
  intros Hk Hi. unfold reshape_step.
  rewrite (bind_Ok _ _ _ _ _ (attr_Some _ _ _ _ Hk)).
  unfold lift, list_setitem, list_delitem. rewrite py_index_out_of_range by done.
  by destruct kd.
Qed.

Lemma reshape_loop_out_of_range l s w kd :
  keepdims (self w) = Some kd → Exists (λ k, ¬ py_in_range (length s) k) l →
  reshape_loop l s w = (Raise IndexError, w).
Proof.
  intros Hk. revert s. induction l as [|i l IH]; intros s Hex; [by inversion Hex|].
  cbn [reshape_loop].
  destruct (decide (py_in_range (length s) i)) as [Hi|Hi].
  - rewrite (bind_Ok _ _ _ _ _ (reshape_step_in_range s i w kd Hk Hi)).
    apply IH. apply Exists_cons in Hex as [?|Hex]; [done|].
    eapply Exists_impl; [done|]. intros k Hn Hr. apply Hn.
    assert (length (if kd then <[py_position (length s) i:=1]> s
                    else delete (py_position (length s) i) s) ≤ length s) as Hle.
    { destruct kd; [by rewrite length_insert|].
      rewrite length_delete; [lia|]. apply lookup_lt_is_Some. by apply py_position_lt. }
    unfold py_in_range in *. lia.
  - by rewrite (bind_Raise _ _ _ _ _ (reshape_step_out_of_range s i w kd Hk Hi)).
Qed.

(** X8.  On a configured instance and an input that is not empty, [reshape]
    raises [IndexError] and resizes nothing when an axis, plain or in the
    tuple, is outside [-rank, rank). *)
Theorem reshape_rejects_axis_out_of_range w b a kd :
  bottom w !! 0 = Some b → count b ≠ 0 →
  axis (self w) = Some a → keepdims (self w) = Some kd →
  Exists (λ k, ¬ py_in_range (length (shape b)) k) (axis_indices a) →
  reshape w = (Raise IndexError, w).
Proof.
  intros Hb Hc Ha Hk Hex. rewrite reshape_unfold, Hb, decide_False, Ha by done.
  assert (new_shape a (shape b) w = (Raise IndexError, w)) as ->; [|done].
  destruct a as [k|ks]; cbn [new_shape axis_indices] in *.
  - apply Exists_cons in Hex as [Hex|Hex]; [|by inversion Hex].
    by apply (reshape_step_out_of_range _ _ _ kd).
  - apply (reshape_loop_out_of_range _ _ _ kd); [done|].
    unfold reversed, sorted. by rewrite reverse_Permutation, merge_sort_Permutation.
Qed.

Lemma reshape_rejects_axis_out_of_range_witness :
  reshape (configured Min (Params None None) (AxisSeq [0; 2]%Z) false
             [example_input []] [fresh_top])
  = (Raise IndexError,
     configured Min (Params None None) (AxisSeq [0; 2]%Z) false
       [example_input []] [fresh_top]).
Proof.
  apply (reshape_rejects_axis_out_of_range
           (configured Min (Params None None) (AxisSeq [0; 2]%Z) false
              [example_input []] [fresh_top])
           (example_input []) (AxisSeq [0; 2]%Z) false).
  - reflexivity.
  - vm_compute. lia.
  - reflexivity.
  - reflexivity.
  - apply Exists_cons_tl, Exists_cons_hd. unfold py_in_range. simpl. lia.
Defined.

Lemma normalize_axis_index_in_range k n :
  py_in_range n k → normalize_axis_index k n = Ok (py_position n k).
Proof.
  unfold py_in_range, normalize_axis_index, py_position. intros H.
  rewrite decide_True by lia. do 2 f_equal. case_decide; lia.
Qed.

(** X9.  A plain negative axis [k] in [-rank, 0) counts from the end: [reshape]
    and [forward] end as with the axis [rank + k], with the same blobs. *)
Theorem negative_int_axis_counts_from_the_end c p kd k bs ts b :
  bs !! 0 = Some b → (- Z.of_nat (length (shape b)) ≤ k < 0)%Z →
  blobs_of (reshape (configured c p (AxisInt k) kd bs ts))
    = blobs_of (reshape (configured c p (AxisInt (Z.of_nat (length (shape b)) + k)) kd bs ts))
  ∧ blobs_of (forward (configured c p (AxisInt k) kd bs ts))
    = blobs_of (forward (configured c p (AxisInt (Z.of_nat (length (shape b)) + k)) kd bs ts)).
Proof.
  intros Hb Hk. set (n := length (shape b)) in *.
  assert (py_in_range n k) as H1 by (unfold py_in_range; lia).
  assert (py_in_range n (Z.of_nat n + k)) as H2 by (unfold py_in_range; lia).
  assert (py_position n (Z.of_nat n + k) = py_position n k) as Hp.
  { unfold py_position. rewrite decide_False by lia. by rewrite decide_True by lia. }
  split.
  - rewrite !reshape_unfold. cbn [configured bottom self axis top]. rewrite Hb.
    case_decide; [done|]. cbn [new_shape].
    rewrite !(reshape_step_in_range _ _ _ kd) by done.
    fold n. rewrite Hp. cbn [fst]. by destruct (ts !! 0).
  - rewrite !forward_unfold_all. cbn [configured bottom self axis keepdims top cls]. rewrite Hb.
    assert (np_reduce c (data_of b) (AxisInt k) kd
            = np_reduce c (data_of b) (AxisInt (Z.of_nat n + k)) kd) as ->.
    { unfold np_reduce. cbn [reduce_axes data_of nd_shape]. fold n.
      rewrite !decide_False by (unfold py_in_range in H1; lia).
      by rewrite !normalize_axis_index_in_range, Hp by done. }
    destruct (np_reduce _ _ _ _) as [v|e]; [|done].
    destruct (ts !! 0) as [t|]; [|done].
    by destruct (setitem_ellipsis _ _).
Qed.

Lemma negative_int_axis_counts_from_the_end_witness :
  blobs_of (reshape (configured Mean (Params None None) (AxisInt (-1)) false
                       [example_input []] [fresh_top]))
    = blobs_of (reshape (configured Mean (Params None None) (AxisInt (2 + -1)) false
                           [example_input []] [fresh_top]))
  ∧ blobs_of (forward (configured Mean (Params None None) (AxisInt (-1)) false
                         [example_input []] [fresh_top]))
    = blobs_of (forward (configured Mean (Params None None) (AxisInt (2 + -1)) false
                           [example_input []] [fresh_top])).
Proof.
  apply (negative_int_axis_counts_from_the_end Mean (Params None None) false (-1)%Z
           [example_input []] [fresh_top] (example_input [])).
  - reflexivity.
  - simpl. lia.
Defined.

Lemma reshape_loop_keep_positions D s w :
  keepdims (self w) = Some true → Forall (py_in_range (length s)) D →
  reshape_loop D s w = (Ok (spec_shape true (py_position (length s) <$> D) s), w).
Proof.
  intros Hk. revert s. induction D as [|d D IH]; intros s HD.
  - cbn. unfold spec_shape. rewrite at_axes_from_none; [done|].
    intros q _. apply not_elem_of_nil.
  - apply Forall_cons in HD as [Hd HD]. cbn [reshape_loop].
    rewrite (bind_Ok _ _ _ _ _ (reshape_step_in_range s d w true Hk Hd)).
    rewrite IH by (by rewrite length_insert).
    rewrite length_insert, fmap_cons. unfold spec_shape.
    rewrite at_axes_from_insert by (by apply py_position_lt). done.
Qed.

Lemma py_position_idemp n k :
  py_in_range n k → py_position n (Z.of_nat (py_position n k)) = py_position n k.
Proof.
  unfold py_in_range, py_position. intros H.
  rewrite (decide_False (P := (Z.of_nat _ < 0)%Z)) by lia. by rewrite Nat2Z.id.
Qed.

Lemma py_position_in_range n k :
  py_in_range n k → py_in_range n (Z.of_nat (py_position n k)).
Proof. intros H. pose proof (py_position_lt n k H). unfold py_in_range. lia. Qed.

Lemma normalize_axis_tuple_in_range ks n :
  Forall (py_in_range n) ks → normalize_axis_tuple ks n = Ok (py_position n <$> ks).
Proof.
  induction 1 as [|k ks Hk H IH]; [done|]. cbn [normalize_axis_tuple].
  by rewrite normalize_axis_index_in_range, IH.
Qed.

(** X10.  With keepdims=true and a tuple of axes in [-rank, rank), in any order
    and of any sign, [reshape] sets to 1 the dimensions the axes stand
    for, and [reshape] followed by [forward] ends as with these axes
    written without sign. *)
Theorem keepdims_takes_negative_axes c p ks b t :
  count b ≠ 0 → Forall (py_in_range (length (shape b))) ks →
  reshape (configured c p (AxisSeq ks) true [b] [t])
    = (Ok (), with_top (configured c p (AxisSeq ks) true [b] [t])
                [blob_reshape
                   (spec_shape true (py_position (length (shape b)) <$> ks) (shape b)) t])
  ∧ blobs_of ((reshape;; forward) (configured c p (AxisSeq ks) true [b] [t]))
    = blobs_of ((reshape;; forward)
                  (configured c p
                     (AxisSeq ((λ k, Z.of_nat (py_position (length (shape b)) k)) <$> ks))
                     true [b] [t])).
Proof.
  intros Hc Hr. set (n := length (shape b)) in *.
  assert (∀ ks, Forall (py_in_range n) ks →
            reshape (configured c p (AxisSeq ks) true [b] [t])
            = (Ok (), with_top (configured c p (AxisSeq ks) true [b] [t])
                        [blob_reshape (spec_shape true (py_position n <$> ks) (shape b)) t]))
    as Hreshape.
  { intros l Hl. rewrite reshape_unfold. cbn [configured bottom self axis top lookup list_lookup].
    rewrite decide_False by done. cbn [new_shape].
    rewrite reshape_loop_keep_positions;
      [|done|by unfold reversed, sorted; rewrite reverse_Permutation, merge_sort_Permutation].
    cbn [fst insert list_insert]. do 4 f_equal. apply spec_shape_perm.
    unfold reversed, sorted. fold n. by rewrite reverse_Permutation, merge_sort_Permutation. }
  set (ks' := (λ k, Z.of_nat (py_position n k)) <$> ks).
  assert (Forall (py_in_range n) ks') as Hr'.
  { apply Forall_fmap. eapply Forall_impl; [done|]. intros k. apply py_position_in_range. }
  assert (py_position n <$> ks' = py_position n <$> ks) as Hpos.
  { unfold ks'. rewrite <- list_fmap_compose. apply Forall_fmap_ext.
    eapply Forall_impl; [done|]. intros k. apply py_position_idemp. }
  split; [by apply Hreshape|].
  unfold mbind, M_bind. rewrite (Hreshape ks Hr), (Hreshape ks' Hr'), Hpos.
  rewrite !forward_unfold_all.
  cbn [with_top configured bottom self axis keepdims top cls lookup list_lookup].
  assert (np_reduce c (data_of b) (AxisSeq ks) true
          = np_reduce c (data_of b) (AxisSeq ks') true) as ->.
  { unfold np_reduce. cbn [reduce_axes data_of nd_shape]. fold n.
    by rewrite !normalize_axis_tuple_in_range, Hpos by done. }
  destruct (np_reduce _ _ _ _) as [v|e]; [|done].
  by destruct (setitem_ellipsis _ _).
Qed.

Lemma keepdims_takes_negative_axes_witness :
  reshape (configured Sum (Params None None) (AxisSeq [-1; 0]%Z) true
             [example_input []] [fresh_top])
    = (Ok (), with_top (configured Sum (Params None None) (AxisSeq [-1; 0]%Z) true
                          [example_input []] [fresh_top])
                [blob_reshape (spec_shape true (py_position 2 <$> [-1; 0]%Z) [2; 3])
                   fresh_top])
  ∧ blobs_of ((reshape;; forward)
                (configured Sum (Params None None) (AxisSeq [-1; 0]%Z) true
                   [example_input []] [fresh_top]))
    = blobs_of ((reshape;; forward)
                  (configured Sum (Params None None)
                     (AxisSeq ((λ k, Z.of_nat (py_position 2 k)) <$> [-1; 0]%Z))
                     true [example_input []] [fresh_top])).
Proof.
  apply (keepdims_takes_negative_axes Sum (Params None None) [-1; 0]%Z
           (example_input []) fresh_top).
  - vm_compute. lia.
  - repeat constructor; unfold py_in_range; simpl; lia.
Defined.

(** ** Where [backward] broadcasts as intended *)

Lemma backward_broadcast w b t :
  bottom w !! 0 = Some b → top w !! 0 = Some t →
  shape t ≠ [] → length (shape t) ≤ length (shape b) →
  broadcastable (shape t) (shape b) →
  backward [true] w =
    (Ok (), {| self := self w;
               bottom := <[0:={| shape := shape b; data := data b;
                                 diff := (λ idx, nth (ravel (shape t) (bcast_index (shape t) idx))
                                                   (diff t) 0%Qc) <$> indices (shape b) |}]>
                           (bottom w);
               top := top w |}).
Proof.
  intros Hb Ht Hne Hlen Hbc. rewrite backward_single, backward_step_unfold, Ht, Hb.
  assert (getitem_slice (diff_of t) = Ok (diff_of t)) as ->
    by (unfold getitem_slice; cbn [diff_of nd_shape]; by destruct (shape t)).
  unfold setitem_ellipsis. cbn [diff_of nd_shape nd_data].
  replace (length (shape t) - length (shape b)) with 0 by lia.
  by rewrite strip_ones_0, decide_True by done.
Qed.

Lemma Forall2_keepdims p A s :
  Forall2 (λ m n, m = n ∨ m = 1) (at_axes_from p true A 1 s) s.
Proof.
  revert p. induction s as [|n s IH]; intros p; cbn [at_axes_from]; [constructor|].
  destruct (decide (p ∈ A)); cbn [app]; (constructor; [|apply IH]); [by right|by left].
Qed.

Lemma broadcastable_keepdims A s : broadcastable (spec_shape true A s) s.
Proof.
  unfold broadcastable, spec_shape. rewrite length_at_axes_from_keep.
  split; [done|]. rewrite Nat.sub_diag, drop_0. apply Forall2_keepdims.
Qed.

Lemma zip_with_keepdims p A s idx :
  Forall2 lt idx s →
  zip_with (λ m i, if decide (m = 1) then 0 else i) (at_axes_from p true A 1 s) idx
  = at_axes_from p true A 0 idx.
Proof.
  intros H. revert p. induction H as [|i n idx s Hi H IH]; intros p; [done|].
  cbn [at_axes_from]. destruct (decide (p ∈ A)); cbn [app zip_with]; rewrite IH; f_equal.
  destruct (decide (n = 1)); [lia|done].
Qed.

Lemma bcast_index_keepdims A s idx :
  Forall2 lt idx s → bcast_index (spec_shape true A s) idx = project true A idx.
Proof.
  intros H. unfold bcast_index, spec_shape, project.
  rewrite length_at_axes_from_keep, (Forall2_length _ _ _ H), Nat.sub_diag, drop_0.
  by apply zip_with_keepdims.
Qed.

(** X12.  When the output has the shape that keepdims=true gives for the axes
    [A], [backward] with the flag set succeeds, changes only the gradient
    of the input, and writes at every position of the input the output
    gradient of the position it was reduced into. *)
Theorem backward_with_keepdims_broadcasts w b t A :
  bottom w = [b] → top w = [t] → shape b ≠ [] →
  shape t = spec_shape true A (shape b) →
  ∃ d, backward [true] w =
         (Ok (), {| self := self w;
                    bottom := [ {| shape := shape b; data := data b; diff := d |} ];
                    top := top w |})
     ∧ length d = count b
     ∧ ∀ idx, idx ∈ indices (shape b) →
         nth (ravel (shape b) idx) d 0%Qc
         = nth (ravel (shape t) (project true A idx)) (diff t) 0%Qc.
Proof.
  intros Hb Ht Hne Hs. eexists. split; [|split].
  - rewrite (backward_broadcast w b t); [by rewrite Hb| by rewrite Hb | by rewrite Ht | | |].
    + intros Hnil. rewrite Hs in Hnil. apply (f_equal length) in Hnil.
      unfold spec_shape in Hnil. rewrite length_at_axes_from_keep in Hnil.
      by destruct (shape b).
    + rewrite Hs. unfold spec_shape. by rewrite length_at_axes_from_keep.
    + rewrite Hs. apply broadcastable_keepdims.
  - by rewrite length_fmap, length_indices.
  - intros idx Hidx.
    rewrite (nth_lookup_Some _ _ _ _ (lookup_fmap_indices _ _ _ Hidx)).
    rewrite Hs at 2. rewrite bcast_index_keepdims by (by apply elem_of_indices). done.
Qed.

Lemma backward_with_keepdims_broadcasts_witness :
  ∃ d, backward [true]
         (World (Layer Sum (Params None None) None None)
            [example_input (replicate 6 0%Qc)] [Blob [2; 1] (qs [6; 15]) (qs [1; 2])])
       = (Ok (), {| self := Layer Sum (Params None None) None None;
                    bottom := [ {| shape := [2; 3]; data := qs [1; 2; 3; 4; 5; 6]; diff := d |} ];
                    top := [Blob [2; 1] (qs [6; 15]) (qs [1; 2])] |})
     ∧ length d = 6
     ∧ ∀ idx, idx ∈ indices [2; 3] →
         nth (ravel [2; 3] idx) d 0%Qc
         = nth (ravel [2; 1] (project true [1] idx)) (qs [1; 2]) 0%Qc.
Proof.
  apply (backward_with_keepdims_broadcasts
           (World (Layer Sum (Params None None) None None)
              [example_input (replicate 6 0%Qc)] [Blob [2; 1] (qs [6; 15]) (qs [1; 2])])
           (example_input (replicate 6 0%Qc)) (Blob [2; 1] (qs [6; 15]) (qs [1; 2])) [1]).
  - reflexivity.
  - reflexivity.
  - discriminate.
  - reflexivity.
Defined.

Lemma at_axes_from_leading {T} p m (u : T) l :
  at_axes_from p false (seq 0 m) u l = drop (m - p) l.
Proof.
  revert p. induction l as [|x l IH]; intros p; [by rewrite drop_nil|].
  cbn [at_axes_from]. rewrite IH. destruct (decide (p ∈ seq 0 m)) as [Hp|Hp].
  - apply elem_of_seq in Hp. replace (m - p) with (S (m - S p)) by lia. done.
  - rewrite elem_of_seq in Hp. replace (m - p) with 0 by lia.
    replace (m - S p) with 0 by lia. done.
Qed.

Lemma spec_shape_leading m s : spec_shape false (seq 0 m) s = drop m s.
Proof. unfold spec_shape. by rewrite at_axes_from_leading, Nat.sub_0_r. Qed.

Lemma bcast_index_suffix m s idx :
  Forall2 lt idx s → bcast_index (drop m s) idx = drop m idx.
Proof.
  intros H. unfold bcast_index.
  rewrite length_drop, (Forall2_length _ _ _ H).
  destruct (decide (m ≤ length s)) as [Hm|Hm].
  - replace (length s - (length s - m)) with m by lia.
    assert (Forall2 lt (drop m idx) (drop m s)) as H' by (by apply Forall2_drop).
    induction H' as [|i n idx' s' Hi H' IH]; [done|]. cbn [zip_with]. rewrite IH. f_equal.
    destruct (decide (n = 1)); [lia|done].
  - rewrite !drop_ge by (rewrite ?(Forall2_length _ _ _ H); lia). done.
Qed.

(** X13.  When the output has the shape that keepdims=false gives for the
    first [m] dimensions, and still has a dimension, [backward] with the
    flag set succeeds and writes at every position of the input the output
    gradient at its other coordinates. *)
Theorem backward_over_leading_axes_broadcasts w b t m :
  bottom w = [b] → top w = [t] →
  shape t = spec_shape false (seq 0 m) (shape b) → shape t ≠ [] →
  ∃ d, backward [true] w =
         (Ok (), {| self := self w;
                    bottom := [ {| shape := shape b; data := data b; diff := d |} ];
                    top := top w |})
     ∧ length d = count b
     ∧ ∀ idx, idx ∈ indices (shape b) →
         nth (ravel (shape b) idx) d 0%Qc
         = nth (ravel (shape t) (drop m idx)) (diff t) 0%Qc.
Proof.
  intros Hb Ht Hs Hne. rewrite spec_shape_leading in Hs.
  assert (m < length (shape b)) as Hm.
  { destruct (decide (m < length (shape b))); [done|].
    rewrite drop_ge in Hs by lia. done. }
  eexists. split; [|split].
  - rewrite (backward_broadcast w b t); [by rewrite Hb| by rewrite Hb | by rewrite Ht | done | |].
    + rewrite Hs, length_drop. lia.
    + rewrite Hs. unfold broadcastable. rewrite length_drop. split; [lia|].
      replace (length (shape b) - (length (shape b) - m)) with m by lia.
      generalize (drop m (shape b)). induction l; constructor; auto.
  - by rewrite length_fmap, length_indices.
  - intros idx Hidx.
    rewrite (nth_lookup_Some _ _ _ _ (lookup_fmap_indices _ _ _ Hidx)).
    rewrite Hs at 2. rewrite bcast_index_suffix by (by apply elem_of_indices). done.
Qed.

Lemma backward_over_leading_axes_broadcasts_witness :
  ∃ d, backward [true]
         (World (Layer Sum (Params None None) None None)
            [example_input (replicate 6 0%Qc)] [Blob [3] (qs [5; 7; 9]) (qs [1; 2; 3])])
       = (Ok (), {| self := Layer Sum (Params None None) None None;
                    bottom := [ {| shape := [2; 3]; data := qs [1; 2; 3; 4; 5; 6]; diff := d |} ];
                    top := [Blob [3] (qs [5; 7; 9]) (qs [1; 2; 3])] |})
     ∧ length d = 6
     ∧ ∀ idx, idx ∈ indices [2; 3] →
         nth (ravel [2; 3] idx) d 0%Qc
         = nth (ravel [3] (drop 1 idx)) (qs [1; 2; 3]) 0%Qc.
Proof.
  apply (backward_over_leading_axes_broadcasts
           (World (Layer Sum (Params None None) None None)
              [example_input (replicate 6 0%Qc)] [Blob [3] (qs [5; 7; 9]) (qs [1; 2; 3])])
           (example_input (replicate 6 0%Qc)) (Blob [3] (qs [5; 7; 9]) (qs [1; 2; 3])) 1).
  - reflexivity.
  - reflexivity.
  - reflexivity.
  - discriminate.
Defined.

(** ** Reducing every dimension *)

Lemma axis_set_all_axes n : axis_set (all_axes n) = seq 0 n.
Proof.
  cbn [all_axes axis_set]. rewrite <- list_fmap_compose.
  rewrite <- (list_fmap_id (seq 0 n)) at 2. apply list_fmap_ext.
  intros i k _. cbn. apply Nat2Z.id.
Qed.

Lemma valid_all_axes n : valid_axis n (all_axes n).
Proof.
  split.
  - apply Forall_fmap, Forall_forall. intros k Hk%elem_of_seq. cbn. lia.
  - apply NoDup_fmap_2; [apply _|apply NoDup_seq].
Qed.






(** X15.  After [reshape] and [forward] over all the dimensions with
    keepdims=false the output has no dimension, and [backward] with the
    flag set raises [IndexError] and writes nothing. *)
Theorem backward_after_full_reduction_raises c p b t :
  count b ≠ 0 →
  ∃ w', (reshape;; forward) (configured c p (all_axes (length (shape b))) false [b] [t])
        = (Ok (), w')
      ∧ shape <$> top w' = [[]]
      ∧ backward [true] w' = (Raise IndexError, w').
Proof.
  intros Hc.
  rewrite (reshape_forward_ok _ (all_axes (length (shape b))) false b t);
    [|done|done|done|done|done|apply valid_all_axes].
  set (t' := reduced_blob _ _ _ _ _).
  assert (shape t' = []) as Hs.
  { unfold t', reduced_blob. cbn [shape].
    by rewrite axis_set_all_axes, spec_shape_leading, drop_all. }
  eexists. split; [done|]. cbn [with_top top fmap list_fmap]. rewrite Hs. split; [done|].
  rewrite backward_single, backward_step_unfold.
  cbn [with_top top lookup list_lookup]. unfold getitem_slice. cbn [diff_of nd_shape].
  by rewrite Hs.
Qed.

Lemma backward_after_full_reduction_raises_witness :
  ∃ w', (reshape;; forward)
          (configured Sum (Params None None) (all_axes 2) false
             [example_input []] [fresh_top])
        = (Ok (), w')
      ∧ shape <$> top w' = [[]]
      ∧ backward [true] w' = (Raise IndexError, w').
Proof.
  apply (backward_after_full_reduction_raises Sum (Params None None)
           (example_input []) fresh_top).
  vm_compute. lia.
Defined.

(** ** Keep-dims changes the shape and nothing else *)

Lemma fibre_indices_keepdims s m :
  fibre true s m <$> indices (reduced_shape true s m)
  = fibre false s m <$> indices (reduced_shape false s m).
Proof.
  revert m. induction s as [|n s IH]; intros [|[] m]; try done.
  - cbn [reduced_shape indices seq fibre]. rewrite bind_cons. cbn [mbind list_bind].
    rewrite app_nil_r.
    rewrite <- list_fmap_compose.
    trans ((λ F : list (list nat), j ← seq 0 n; (j ::.) <$> F)
             <$> (fibre true s m <$> indices (reduced_shape true s m))).
    { by rewrite <- list_fmap_compose. }
    rewrite IH. by rewrite <- list_fmap_compose.
  - cbn [reduced_shape indices]. rewrite !list_fmap_bind'.
    apply list_bind_ext_in. intros i _. rewrite <- !list_fmap_compose.
    trans ((λ F : list (list nat), (i ::.) <$> F)
             <$> (fibre true s m <$> indices (reduced_shape true s m))).
    { by rewrite <- list_fmap_compose. }
    rewrite IH. by rewrite <- list_fmap_compose.
Qed.

Lemma reduced_values_fibre c kd a ax :
  valid_axis (length (nd_shape a)) ax → size_of (nd_shape a) ≠ 0 →
  reduced_values c kd (axis_set ax) a (spec_shape kd (axis_set ax) (nd_shape a))
  = (λ F, reduce_values c
            (size_of (select (mask_from 0 (length (nd_shape a)) (axis_set ax)) (nd_shape a)))
            (item a <$> F))
      <$> (fibre kd (nd_shape a) (mask_from 0 (length (nd_shape a)) (axis_set ax))
             <$> indices (reduced_shape kd (nd_shape a)
                            (mask_from 0 (length (nd_shape a)) (axis_set ax)))).
Proof.
  intros Hv Hs. pose proof (np_reduce_valid c a ax kd Hv Hs) as H.
  unfold np_reduce in H. rewrite reduce_axes_valid in H by done.
  cbn [mbind result_bind] in H.
  change (axes_mask (length (nd_shape a)) (axis_set ax))
    with (mask_from 0 (length (nd_shape a)) (axis_set ax)) in H.
  rewrite decide_False in H
    by (intros [_ H']; by apply (select_mask_from_nonzero 0 (axis_set ax)) in H').
  injection H as _ H. rewrite <- H. by rewrite <- list_fmap_compose.
Qed.

(** X16.  For an input that is not empty and a valid axis specification, the
    outputs of [reshape] and [forward] with keepdims=true and with
    keepdims=false hold the same values in the same order; only the shape
    differs. *)
Theorem keepdims_changes_only_the_shape c p a b t :
  count b ≠ 0 → valid_axis (length (shape b)) a →
  ∃ d, output (reshape;; forward) (configured c p a true [b] [t])
       = Ok (NdArray (spec_shape true (axis_set a) (shape b)) d)
     ∧ output (reshape;; forward) (configured c p a false [b] [t])
       = Ok (NdArray (spec_shape false (axis_set a) (shape b)) d).
Proof.
  intros Hc Hv.
  rewrite (output_reshape_forward _ a true b t) by done.
  rewrite (output_reshape_forward _ a false b t) by done.
  eexists. split; [done|]. f_equal. f_equal. cbn [configured self cls].
  pose proof (reduced_values_fibre c true (data_of b) a Hv Hc) as Ht.
  pose proof (reduced_values_fibre c false (data_of b) a Hv Hc) as Hf.
  cbn [data_of nd_shape] in Ht, Hf. fold (data_of b) in Ht, Hf.
  rewrite Ht, Hf. by rewrite fibre_indices_keepdims.
Qed.

Lemma keepdims_changes_only_the_shape_witness :
  ∃ d, output (reshape;; forward)
         (configured Max (Params None None) (AxisSeq [1%Z]) true
            [example_input []] [fresh_top])
       = Ok (NdArray (spec_shape true [1] [2; 3]) d)
     ∧ output (reshape;; forward)
         (configured Max (Params None None) (AxisSeq [1%Z]) false
            [example_input []] [fresh_top])
       = Ok (NdArray (spec_shape false [1] [2; 3]) d).
Proof.
  apply (keepdims_changes_only_the_shape Max (Params None None) (AxisSeq [1%Z])
           (example_input []) fresh_top).
  - vm_compute. lia.
  - split.
    + repeat constructor; simpl; lia.
    + apply NoDup_singleton.
Defined.

(** ** Negative indices in a tuple, without keep-dims *)

Lemma at_axes_from_app {T} p kd A (u : T) l1 l2 :
  at_axes_from p kd A u (l1 ++ l2)
  = at_axes_from p kd A u l1 ++ at_axes_from (p + length l1) kd A u l2.
Proof.
  revert p. induction l1 as [|x l1 IH]; intros p.
  - cbn. by rewrite Nat.add_0_r.
  - cbn [app at_axes_from length]. rewrite IH, <- app_assoc.
    by replace (S p + length l1) with (p + S (length l1)) by lia.
Qed.

Lemma py_position_negative n k :
  (k < 0)%Z → py_position n k = Z.to_nat (Z.of_nat n + k).
Proof. intros H. unfold py_position. by rewrite decide_True. Qed.

(** X11.  With keepdims=false and the tuple (-1, -2) on an input of shape
    [..., x, y, z], [reshape] gives the output the shape [..., y], while
    the reduction has the shape [..., x]: when [x] is neither [y] nor 1,
    [forward] after [reshape] raises [ValueError] and writes nothing. *)
Theorem negative_axes_without_keepdims c p b t pre x y z :
  shape b = pre ++ [x; y; z] → count b ≠ 0 → x ≠ y → x ≠ 1 →
  reshape (configured c p (AxisSeq [-1; -2]%Z) false [b] [t])
    = (Ok (), with_top (configured c p (AxisSeq [-1; -2]%Z) false [b] [t])
                [blob_reshape (pre ++ [y]) t])
  ∧ (∃ v, np_reduce c (data_of b) (AxisSeq [-1; -2]%Z) false = Ok v
          ∧ nd_shape v = pre ++ [x])
  ∧ (reshape;; forward) (configured c p (AxisSeq [-1; -2]%Z) false [b] [t])
    = (Raise ValueError,
       with_top (configured c p (AxisSeq [-1; -2]%Z) false [b] [t])
         [blob_reshape (pre ++ [y]) t]).
Proof.
  intros Hs Hc Hxy Hx1.
  set (w := configured c p (AxisSeq [-1; -2]%Z) false [b] [t]).
  assert (reshape w = (Ok (), with_top w [blob_reshape (pre ++ [y]) t])) as Hreshape.
  { rewrite reshape_unfold. cbn [w configured bottom self axis top lookup list_lookup].
    rewrite decide_False by done. cbn [new_shape].
    change (reversed (sorted [-1; -2]%Z)) with [-1; -2]%Z.
    cbn [reshape_loop].
    assert (py_in_range (length (shape b)) (-1)) as H1
      by (rewrite Hs, length_app; unfold py_in_range; cbn; lia).
    assert (py_in_range (length (pre ++ [x; y])) (-2)) as H2
      by (rewrite length_app; unfold py_in_range; cbn; lia).
    rewrite (bind_Ok _ _ _ _ _ (reshape_step_in_range (shape b) (-1)%Z w false eq_refl H1)).
    assert (delete (py_position (length (shape b)) (-1)) (shape b) = pre ++ [x; y]) as ->.
    { rewrite Hs. replace (py_position _ _) with (length (pre ++ [x; y]))
        by (rewrite py_position_negative, !length_app by lia; cbn [length]; lia).
      change (pre ++ [x; y; z]) with (pre ++ [x; y] ++ [z]). rewrite app_assoc.
      by rewrite delete_middle, app_nil_r. }
    rewrite (bind_Ok _ _ _ _ _ (reshape_step_in_range (pre ++ [x; y]) (-2)%Z w false eq_refl H2)).
    assert (delete (py_position (length (pre ++ [x; y])) (-2)) (pre ++ [x; y]) = pre ++ [y]) as ->.
    { replace (py_position _ _) with (length pre)
        by (rewrite py_position_negative, !length_app by lia; cbn [length]; lia).
      by rewrite delete_middle. }
    done. }
  assert (∃ v, np_reduce c (data_of b) (AxisSeq [-1; -2]%Z) false = Ok v
               ∧ nd_shape v = pre ++ [x]) as Hnp.
  { unfold np_reduce. cbn [reduce_axes data_of nd_shape].
    rewrite normalize_axis_tuple_in_range
      by (rewrite Hs, length_app; repeat constructor; unfold py_in_range; cbn; lia).
    cbn [mbind result_bind fmap list_fmap].
    set (n := length (shape b)).
    assert (py_position n (-1) = length pre + 2 ∧ py_position n (-2) = length pre + 1)
      as [-> ->].
    { unfold n. rewrite !py_position_negative, Hs, length_app by lia. cbn [length]. lia. }
    rewrite decide_True by (apply NoDup_cons; split;
      [rewrite list_elem_of_singleton; lia|apply NoDup_singleton]).
    cbn [mbind result_bind].
    change (axes_mask n [length pre + 2; length pre + 1])
      with (mask_from 0 n [length pre + 2; length pre + 1]).
    rewrite decide_False
      by (intros [_ H']; by apply (select_mask_from_nonzero 0 _ (shape b)) in H').
    eexists. split; [done|]. cbn [nd_shape]. unfold n.
    rewrite reduced_shape_mask_from, Hs, at_axes_from_app.
    rewrite at_axes_from_none.
    2: { intros q Hq. rewrite !elem_of_cons, elem_of_nil. lia. }
    f_equal. cbn [at_axes_from Nat.add].
    rewrite decide_False by (rewrite !elem_of_cons, elem_of_nil; lia).
    rewrite decide_True by (rewrite !elem_of_cons; lia).
    rewrite decide_True by (rewrite !elem_of_cons; lia). done. }
  split; [done|]. split; [done|].
  destruct Hnp as (v & Hv & Hvs).
  rewrite (bind_Ok _ _ _ _ _ Hreshape), forward_unfold_all.
  cbn [w with_top configured bottom self axis keepdims top cls lookup list_lookup].
  rewrite Hv. unfold setitem_ellipsis. cbn [data_of nd_shape blob_reshape shape].
  rewrite Hvs. replace (length (pre ++ [x]) - length (pre ++ [y])) with 0
    by (rewrite !length_app; cbn; lia).
  rewrite strip_ones_0, decide_False; [done|].
  intros [_ Hf]. rewrite !length_app in Hf. cbn [length] in Hf.
  rewrite Nat.sub_diag, drop_0 in Hf.
  apply Forall2_app_inv in Hf as [_ Hf]; [|done].
  inversion Hf as [|???? Hor]; subst. lia.
Qed.

Lemma negative_axes_without_keepdims_witness :
  reshape (configured Sum (Params None None) (AxisSeq [-1; -2]%Z) false
             [Blob [5; 2; 3; 4] [] []] [fresh_top])
    = (Ok (), with_top (configured Sum (Params None None) (AxisSeq [-1; -2]%Z) false
                          [Blob [5; 2; 3; 4] [] []] [fresh_top])
                [blob_reshape ([5] ++ [3]) fresh_top])
  ∧ (∃ v, np_reduce Sum (data_of (Blob [5; 2; 3; 4] [] [])) (AxisSeq [-1; -2]%Z) false = Ok v
          ∧ nd_shape v = [5] ++ [2])
  ∧ (reshape;; forward) (configured Sum (Params None None) (AxisSeq [-1; -2]%Z) false
                           [Blob [5; 2; 3; 4] [] []] [fresh_top])
    = (Raise ValueError,
       with_top (configured Sum (Params None None) (AxisSeq [-1; -2]%Z) false
                   [Blob [5; 2; 3; 4] [] []] [fresh_top])
         [blob_reshape ([5] ++ [3]) fresh_top]).
Proof.
  apply (negative_axes_without_keepdims Sum (Params None None) (Blob [5; 2; 3; 4] [] [])
           fresh_top [5] 2 3 4).
  - reflexivity.
  - vm_compute. lia.
  - lia.
  - lia.
Defined.

(** ** The order of the hooks *)

(** X17.  On an instance that [setup] has not configured, [reshape] and
    [forward] on an input that is not empty raise [AttributeError] for
    [axis] and change nothing. *)
Theorem hooks_before_setup_raise w b :
  axis (self w) = None → bottom w !! 0 = Some b → count b ≠ 0 →
  reshape w = (Raise (AttributeError "axis"), w)
  ∧ forward w = (Raise (AttributeError "axis"), w).
Proof.
  intros Ha Hb Hc. split.
  - rewrite reshape_unfold, Hb, decide_False, Ha; done.
  - rewrite forward_unfold_all, Hb, Ha; done.
Qed.

Lemma hooks_before_setup_raise_witness :
  reshape (scenario Sum (AxisInt 1) false (example_input []) fresh_top)
    = (Raise (AttributeError "axis"),
       scenario Sum (AxisInt 1) false (example_input []) fresh_top)
  ∧ forward (scenario Sum (AxisInt 1) false (example_input []) fresh_top)
    = (Raise (AttributeError "axis"),
       scenario Sum (AxisInt 1) false (example_input []) fresh_top).
Proof.
  apply (hooks_before_setup_raise
           (scenario Sum (AxisInt 1) false (example_input []) fresh_top)
           (example_input [])).
  - reflexivity.
  - reflexivity.
  - vm_compute. lia.
Defined.


